(** * Support-ticket lifecycle of the scholarship portal (bsi.py)

    A shallow embedding of the ticket part of [bsi.py]: the [Ticket] and
    [TicketMessage] tables, [format_ticket_number], and the request handlers
    [ticket_new], [admin_tickets], [chat_messages] and [chat_send].

    Conventions of the model.
    - Python [str] values are lists of Unicode code points, so [len] is
      [length] and [s[:120]] is [take 120 s].
    - The ORM session is explicit: a handler works on a copy of the stored
      database, [commit] publishes the copy, and what was not committed when
      the request ends is dropped (the session is removed at teardown).
    - Clock readings ([datetime.now(WIB)], [datetime.utcnow]) are inputs of
      the handlers.
    - Column values are the Python values the handlers assign. *)

From Stdlib Require Import ZArith NArith Lia String Ascii.
From stdpp Require Import gmap list.

Local Open Scope Z_scope.

(** ** Python text *)

Abbreviation str := (list N).

(** A literal of the source, as code points. *)
Definition lit (s : string) : list N :=
  map N_of_ascii (list_ascii_of_string s).

(** [str.isspace] on one code point (the white-space table of CPython). *)
Definition isspace (c : N) : bool :=
  ((9 <=? c) && (c <=? 13) || (28 <=? c) && (c <=? 32) || (c =? 133)
   || (c =? 160) || (c =? 5760) || (8192 <=? c) && (c <=? 8202)
   || (c =? 8232) || (c =? 8233) || (c =? 8239) || (c =? 8287)
   || (c =? 12288))%N.

Fixpoint lstrip (s : str) : str :=
  match s with
  | c :: s' => if isspace c then lstrip s' else s
  | [] => []
  end.

Definition rstrip (s : str) : str := rev (lstrip (rev s)).

(** [s.strip()] *)
Definition strip (s : str) : str := rstrip (lstrip s).

(** [s.split("\n")[0]]: everything before the first line feed. *)
Fixpoint first_line (s : str) : str :=
  match s with
  | c :: s' => if (c =? 10)%N then [] else c :: first_line s'
  | [] => []
  end.

(** [request.form.get(k) or ""] *)
Definition form_or_empty (v : option str) : str := default [] v.

(** Python truth value of a string. *)
Definition truthy (s : str) : bool :=
  match s with [] => false | _ => true end.

(** *** Decimal rendering *)

Definition digit (d : Z) : N := (48 + Z.to_N d)%N.

Fixpoint dec_go (fuel : nat) (n : Z) (acc : str) : str :=
  match fuel with
  | O => acc
  | S fuel' =>
      let acc' := digit (n mod 10) :: acc in
      if n / 10 =? 0 then acc' else dec_go fuel' (n / 10) acc'
  end.

(** [str(n)] for [0 <= n]. *)
Definition dec (n : Z) : str := dec_go (S (Z.to_nat (Z.log2 n))) n [].

(** [s.zfill(w)] for a string of digits. *)
Definition zfill (w : nat) (s : str) : str :=
  replicate (w - length s)%nat 48%N ++ s.

(** [f"{n:0wd}"]: at least [w] characters, the sign counted in. *)
Definition format_0d (w : nat) (n : Z) : str :=
  if n <? 0 then 45%N :: zfill (w - 1)%nat (dec (- n)) else zfill w (dec n).

(** [str(n)] for any integer. *)
Definition str_of_int (n : Z) : str :=
  if n <? 0 then 45%N :: dec (- n) else dec n.

(** ** Python [datetime] *)

(** A fixed-offset [tzinfo], as its offset from UTC in seconds. *)
Record datetime := mk_datetime {
  year : Z; month : Z; day : Z;
  hour : Z; minute : Z; second : Z; microsecond : Z;
  tzinfo : option Z
}.

(** [WIB = timezone(timedelta(hours=7))] *)
Definition WIB : Z := 7 * 3600.
Definition utc : Z := 0.

Definition MINYEAR : Z := 1.
Definition MAXYEAR : Z := 9999.

Definition is_leap (y : Z) : bool :=
  (y mod 4 =? 0) && (negb (y mod 100 =? 0) || (y mod 400 =? 0)).

Definition days_before_year (y : Z) : Z :=
  let y := y - 1 in y * 365 + y / 4 - y / 100 + y / 400.

Definition days_in_month_table (m : Z) : Z :=
  match m with
  | 1 => 31 | 2 => 28 | 3 => 31 | 4 => 30 | 5 => 31 | 6 => 30
  | 7 => 31 | 8 => 31 | 9 => 30 | 10 => 31 | 11 => 30 | 12 => 31
  | _ => -1
  end.

Definition days_before_month_table (m : Z) : Z :=
  match m with
  | 1 => 0 | 2 => 31 | 3 => 59 | 4 => 90 | 5 => 120 | 6 => 151
  | 7 => 181 | 8 => 212 | 9 => 243 | 10 => 273 | 11 => 304 | 12 => 334
  | _ => -1
  end.

Definition days_before_month (y m : Z) : Z :=
  days_before_month_table m + (if (2 <? m) && is_leap y then 1 else 0).

Definition ymd2ord (y m d : Z) : Z :=
  days_before_year y + days_before_month y m + d.

Definition DI400Y : Z := 146097.
Definition DI100Y : Z := 36524.
Definition DI4Y : Z := 1461.

(** The end of [_ord2ymd]: month and day of the [n]-th day of a year,
    counted from 0. *)
Definition month_day (n : Z) (leapyear : bool) : Z * Z :=
  let m := Z.shiftr (n + 50) 5 in
  let preceding :=
    days_before_month_table m + (if (2 <? m) && leapyear then 1 else 0) in
  if n <? preceding then
    let m := m - 1 in
    let preceding :=
      preceding
      - (days_in_month_table m + (if (m =? 2) && leapyear then 1 else 0)) in
    (m, n - preceding + 1)
  else (m, n - preceding + 1).

(** [_ord2ymd]: the proleptic Gregorian date of a day number. *)
Definition ord2ymd (n : Z) : Z * Z * Z :=
  let n := n - 1 in
  let n400 := n / DI400Y in
  let n := n mod DI400Y in
  let y := n400 * 400 + 1 in
  let n100 := n / DI100Y in
  let n := n mod DI100Y in
  let n4 := n / DI4Y in
  let n := n mod DI4Y in
  let n1 := n / 365 in
  let n := n mod 365 in
  let y := y + n100 * 100 + n4 * 4 + n1 in
  if (n1 =? 4) || (n100 =? 4) then (y - 1, 12, 31)
  else
    let leapyear := (n1 =? 3) && (negb (n4 =? 24) || (n100 =? 3)) in
    let '(m, d) := month_day n leapyear in
    (y, m, d).

(** Seconds of the wall clock since the start of day 0. *)
Definition wall_seconds (dt : datetime) : Z :=
  ymd2ord (year dt) (month dt) (day dt) * 86400
  + hour dt * 3600 + minute dt * 60 + second dt.

(** [dt + timedelta(seconds=delta)], keeping [tzinfo]; [None] is
    [OverflowError] (the year leaves [MINYEAR..MAXYEAR]). *)
Definition add_seconds (dt : datetime) (delta : Z) : option datetime :=
  let t := wall_seconds dt + delta in
  let days := t / 86400 in
  let rest := t mod 86400 in
  if (0 <? days) && (days <=? ymd2ord MAXYEAR 12 31) then
    let '(y, m, d) := ord2ymd days in
    Some (mk_datetime y m d (rest / 3600) (rest mod 3600 / 60) (rest mod 60)
            (microsecond dt) (tzinfo dt))
  else None.

(** [dt.replace(tzinfo=tz)] *)
Definition replace_tzinfo (dt : datetime) (tz : option Z) : datetime :=
  mk_datetime (year dt) (month dt) (day dt) (hour dt) (minute dt) (second dt)
    (microsecond dt) tz.

(** [dt.astimezone(tz)].  A naive [dt] is read in the system's local zone,
    whose offset [local] is a parameter of the deployment.  The test
    [tz is mytz] is modelled as equality of offsets. *)
Definition astimezone (local : Z) (dt : datetime) (tz : Z) : option datetime :=
  let myoffset := default local (tzinfo dt) in
  if decide (tzinfo dt = Some tz) then Some dt
  else
    match add_seconds dt (- myoffset) with
    | Some u => add_seconds (replace_tzinfo u (Some tz)) tz
    | None => None
    end.

Definition month_abbr (m : Z) : str :=
  match m with
  | 1 => lit "Jan" | 2 => lit "Feb" | 3 => lit "Mar" | 4 => lit "Apr"
  | 5 => lit "May" | 6 => lit "Jun" | 7 => lit "Jul" | 8 => lit "Aug"
  | 9 => lit "Sep" | 10 => lit "Oct" | 11 => lit "Nov" | 12 => lit "Dec"
  | _ => []
  end.

(** [%Y] as the C library of the deployment (glibc) prints it: the year
    in decimal, not padded, so a year below 1000 has fewer than four
    digits. *)
Definition strftime_Y (dt : datetime) : str := str_of_int (year dt).

(** [dt.strftime("%Y%m%d")] *)
Definition strftime_Ymd (dt : datetime) : str :=
  strftime_Y dt ++ format_0d 2 (month dt) ++ format_0d 2 (day dt).

(** [dt.strftime("%d %b %Y, %H:%M")] *)
Definition strftime_dbYHM (dt : datetime) : str :=
  format_0d 2 (day dt) ++ lit " " ++ month_abbr (month dt) ++ lit " "
  ++ strftime_Y dt ++ lit ", " ++ format_0d 2 (hour dt) ++ lit ":"
  ++ format_0d 2 (minute dt).

(** [dt.strftime("%d %b %Y, %H:%M WIB")] *)
Definition strftime_dbYHM_WIB (dt : datetime) : str :=
  strftime_dbYHM dt ++ lit " WIB".

(** ** Tables *)

Module User.
Record t := mk { id : Z; full_name : str; role : str }.
End User.

(** [class Ticket].  The column [updated_at], which only the ORM writes
    ([onupdate]), is left out. *)
Module Ticket.
Record t := mk {
  id : Z;
  user_id : Z;
  title : str;
  description : str;
  category : option str;
  attachment_path : option str;
  status : str;
  created_at : option datetime;
  completed_at : option datetime;
  admin_note : option str;
  assigned_admin_id : option Z
}.

Definition set_attachment_path (v : option str) (x : t) : t :=
  mk (id x) (user_id x) (title x) (description x) (category x) v (status x)
    (created_at x) (completed_at x) (admin_note x) (assigned_admin_id x).

Definition set_status (v : str) (x : t) : t :=
  mk (id x) (user_id x) (title x) (description x) (category x)
    (attachment_path x) v (created_at x) (completed_at x) (admin_note x)
    (assigned_admin_id x).

Definition set_completed_at (v : option datetime) (x : t) : t :=
  mk (id x) (user_id x) (title x) (description x) (category x)
    (attachment_path x) (status x) (created_at x) v (admin_note x)
    (assigned_admin_id x).

Definition set_admin_note (v : option str) (x : t) : t :=
  mk (id x) (user_id x) (title x) (description x) (category x)
    (attachment_path x) (status x) (created_at x) (completed_at x) v
    (assigned_admin_id x).

Definition set_assigned_admin_id (v : option Z) (x : t) : t :=
  mk (id x) (user_id x) (title x) (description x) (category x)
    (attachment_path x) (status x) (created_at x) (completed_at x)
    (admin_note x) v.
End Ticket.

Module TicketMessage.
Record t := mk {
  id : Z;
  ticket_id : Z;
  sender_id : Z;
  message : str;
  created_at : option datetime;
  is_read_admin : bool;
  is_read_user : bool
}.

Definition set_is_read_admin (v : bool) (x : t) : t :=
  mk (id x) (ticket_id x) (sender_id x) (message x) (created_at x) v
    (is_read_user x).

Definition set_is_read_user (v : bool) (x : t) : t :=
  mk (id x) (ticket_id x) (sender_id x) (message x) (created_at x)
    (is_read_admin x) v.
End TicketMessage.

(** [class ActivityLog], without the columns the database fills in. *)
Module ActivityLog.
Record t := mk { user_id : option Z; action : str; detail : str }.
End ActivityLog.

(** The stored rows.  Tickets and users are found by primary key; messages
    and log rows are kept in insertion order.  The two counters are the
    sequences that hand out primary keys. *)
Record Database := mk_db {
  users : gmap Z User.t;
  tickets : gmap Z Ticket.t;
  ticket_messages : list TicketMessage.t;
  activity_logs : list ActivityLog.t;
  next_ticket_id : Z;
  next_message_id : Z
}.

(** ** The ORM session *)

Record Session := mk_session { stored : Database; working : Database }.

Definition begin (db : Database) : Session := mk_session db db.

(** [db.session.commit()] *)
Definition commit (s : Session) : Session := mk_session (working s) (working s).

(** End of the request: the session is removed, pending changes are lost. *)
Definition teardown (s : Session) : Database := stored s.

Definition with_working (f : Database -> Database) (s : Session) : Session :=
  mk_session (stored s) (f (working s)).

(** An attribute assignment on a loaded ticket: the row of the session
    changes, the stored row does not until [commit]. *)
Definition put_ticket (k : Z) (x : Ticket.t) : Session -> Session :=
  with_working (fun db =>
    mk_db (users db) (<[k := x]> (tickets db)) (ticket_messages db)
      (activity_logs db) (next_ticket_id db) (next_message_id db)).

(** [db.session.add(Ticket(...))]: the row gets the next primary key. *)
Definition add_ticket (mkrow : Z -> Ticket.t) (s : Session)
  : Ticket.t * Session :=
  let k := next_ticket_id (working s) in
  let x := mkrow k in
  (x, with_working (fun db =>
        mk_db (users db) (<[k := x]> (tickets db)) (ticket_messages db)
          (activity_logs db) (k + 1) (next_message_id db)) s).

(** [db.session.add(TicketMessage(...))] *)
Definition add_message (mkrow : Z -> TicketMessage.t) : Session -> Session :=
  with_working (fun db =>
    let k := next_message_id db in
    mk_db (users db) (tickets db) (ticket_messages db ++ [mkrow k])
      (activity_logs db) (next_ticket_id db) (k + 1)).

Definition set_messages (rows : list TicketMessage.t) : Session -> Session :=
  with_working (fun db =>
    mk_db (users db) (tickets db) rows (activity_logs db)
      (next_ticket_id db) (next_message_id db)).

Definition add_log (row : ActivityLog.t) : Session -> Session :=
  with_working (fun db =>
    mk_db (users db) (tickets db) (ticket_messages db)
      (activity_logs db ++ [row]) (next_ticket_id db) (next_message_id db)).

(** [log_action] *)
Definition log_action (user_id : option Z) (action detail : str)
  (s : Session) : Session :=
  commit (add_log (ActivityLog.mk user_id action detail) s).

(** [current_user]: [uid] is [session.get("user_id")]. *)
Definition current_user (uid : option Z) (s : Session) : option User.t :=
  match uid with
  | Some u => if u =? 0 then None else users (working s) !! u
  | None => None
  end.

(** ** Responses *)

Inductive http_method := GET | POST.

Record chat_entry := mk_entry {
  entry_sender : str; entry_me : bool; entry_text : str; entry_time : str
}.

Inductive response :=
| Redirect (endpoint : str)
| Page (title : str)
| Json (entries : list chat_entry)
| JsonSuccess (ok : bool)
| NotFound
| RequestEntityTooLarge
| InternalServerError.

(** A response together with the messages passed to [flash], each with
    its category. *)
Record reply := mk_reply { body : response; flashed : list (str * str) }.

Definition plain (r : response) : reply := mk_reply r [].
Definition flash_and (msg category : str) (r : response) : reply :=
  mk_reply r [(msg, category)].

(** ** [format_ticket_number] *)

(** [now] is the reading of [datetime.now(WIB)] used when the ticket has no
    creation time. *)
Definition format_ticket_number (local : Z) (now : datetime)
  (ticket : Ticket.t) : str :=
  let dt :=
    match Ticket.created_at ticket with
    | None => now
    | Some dt =>
        match astimezone local dt WIB with
        | Some dt' => dt'
        | None =>
            match astimezone local (replace_tzinfo dt (Some utc)) WIB with
            | Some dt' => dt'
            | None => dt
            end
        end
    end in
  let prefix := strftime_Ymd dt in
  prefix ++ format_0d 3 (Ticket.id ticket).

(** ** Decorators *)

Definition handler := Session -> reply * Session.

(** [login_required] *)
Definition login_required (uid : option Z) (f : handler) : handler :=
  fun s =>
    match uid with
    | Some u => if u =? 0 then (plain (Redirect (lit "login")), s) else f s
    | None => (plain (Redirect (lit "login")), s)
    end.

(** [admin_required] *)
Definition admin_required (uid : option Z) (f : handler) : handler :=
  fun s =>
    match current_user uid s with
    | Some user =>
        if bool_decide (User.role user <> lit "admin") then
          (flash_and (lit "Anda tidak memiliki akses admin.") (lit "danger")
             (Redirect (lit "dashboard")), s)
        else f s
    | None =>
        (flash_and (lit "Anda tidak memiliki akses admin.") (lit "danger")
           (Redirect (lit "dashboard")), s)
    end.

(** ** [ticket_new] *)

(** An uploaded file that passes [attachment and attachment.filename]:
    the result of [secure_filename] and [len(data)]. *)
Record upload := mk_upload { secured_name : str; data_len : N }.

(** [app.config["MAX_CONTENT_LENGTH"]] *)
Definition MAX_CONTENT_LENGTH : Z := 2 * 1024 * 1024.

(** The length of the request body: the bytes of the uploaded file and
    [overhead], the bytes of everything else (the other fields and the
    multipart framing). *)
Definition content_length (overhead : N) (attachment : option upload) : Z :=
  Z.of_N overhead
  + match attachment with Some a => Z.of_N (data_len a) | None => 0 end.

Fixpoint split_last_dot (r acc : str) : option (str * str) :=
  match r with
  | [] => None
  | c :: r' =>
      if (c =? 46)%N then Some (46%N :: acc, r')
      else split_last_dot r' (c :: acc)
  end.

(** [os.path.splitext(p)[1]] for a name without separators. *)
Definition splitext_ext (p : str) : str :=
  match split_last_dot (rev p) [] with
  | Some (e, stem) => if existsb (fun c => negb (c =? 46)%N) stem then e else []
  | None => []
  end.

(** [s.lower()] on the ASCII names [secure_filename] returns. *)
Definition lower (s : str) : str :=
  map (fun c => if ((65 <=? c) && (c <=? 90))%N then (c + 32)%N else c) s.

Definition allowed_ext (e : str) : bool :=
  bool_decide (e = lit ".png" \/ e = lit ".jpg" \/ e = lit ".jpeg").

(** The short title: the first line, cut after 120 characters. *)
Definition short_title_of (description : str) : str :=
  let short_title := first_line (strip description) in
  if (120 <? length short_title)%nat then take 120 short_title ++ lit "..."
  else short_title.

Definition ticket_new (method : http_method) (uid : option Z)
  (overhead : N) (form_category form_description : option str)
  (attachment : option upload) (utcnow : datetime) : handler :=
  login_required uid (fun s =>
    match current_user uid s with
    | None => (plain (Redirect (lit "login")), s)
    | Some user =>
        match method with
        | GET => (plain (Page (lit "Laporan Kendala Baru")), s)
        | POST =>
            (* request.form refuses a body over the limit (413) *)
            if MAX_CONTENT_LENGTH <? content_length overhead attachment then
              (plain RequestEntityTooLarge, s)
            else
            let category := strip (form_or_empty form_category) in
            let description := strip (form_or_empty form_description) in
            if negb (truthy description) then
              (flash_and (lit "Deskripsi kendala wajib diisi.") (lit "danger")
                 (Page (lit "Laporan Kendala Baru")), s)
            else
              let short_title := short_title_of description in
              let '(ticket, s) :=
                add_ticket (fun k =>
                  Ticket.mk k (User.id user) short_title description
                    (if truthy category then Some category else None)
                    None (lit "open") (Some utcnow) None None None) s in
              let s := commit s in
              let '(fl, s) :=
                match attachment with
                | Some a =>
                    let filename := secured_name a in
                    let ext := lower (splitext_ext filename) in
                    if negb (allowed_ext ext) then
                      ([(lit "File lampiran harus berupa gambar (PNG/JPG).",
                         lit "danger")], s)
                    else if 300 * 1024 <? Z.of_N (data_len a) then
                      ([(lit "Ukuran file lampiran maksimal 300 KB.",
                         lit "danger")], s)
                    else
                      let rel_path :=
                        lit "uploads/tickets/" ++ str_of_int (Ticket.id ticket)
                        ++ lit "/" ++ filename in
                      ([], commit (put_ticket (Ticket.id ticket)
                             (Ticket.set_attachment_path (Some rel_path) ticket)
                             s))
                | None => ([], s)
                end in
              let s := log_action (Some (User.id user)) (lit "ticket_create")
                         short_title s in
              (mk_reply (Redirect (lit "tickets"))
                 (fl ++ [(lit "Laporan kendala berhasil dikirim.",
                          lit "success")]), s)
        end
    end).

(** ** [admin_tickets] *)

(** The running log of notes: the new entry goes after what is there. *)
Definition append_note (now : datetime) (admin_note : str) (ticket : Ticket.t)
  : Ticket.t :=
  if truthy admin_note then
    let timestamp := strftime_dbYHM_WIB now in
    let prefix := lit "[" ++ timestamp ++ lit "] " in
    let existing := strip (default [] (Ticket.admin_note ticket)) in
    if truthy existing then
      Ticket.set_admin_note
        (Some (existing ++ [10%N] ++ prefix ++ admin_note)) ticket
    else Ticket.set_admin_note (Some (prefix ++ admin_note)) ticket
  else ticket.

(** [if ticket.assigned_admin_id is None: ticket.assigned_admin_id = admin.id] *)
Definition assign_if_unassigned (admin : User.t) (ticket : Ticket.t)
  : Ticket.t :=
  match Ticket.assigned_admin_id ticket with
  | None => Ticket.set_assigned_admin_id (Some (User.id admin)) ticket
  | Some _ => ticket
  end.

(** The assignments of the branch [action == "accept"]. *)
Definition on_accept (ticket : Ticket.t) : Ticket.t :=
  if bool_decide (Ticket.status ticket = lit "open")
  then Ticket.set_status (lit "in_progress") ticket
  else ticket.

(** The assignments of the branch [action == "complete"]. *)
Definition on_complete (now : datetime) (ticket : Ticket.t) : Ticket.t :=
  if bool_decide (Ticket.status ticket = lit "in_progress"
                  \/ Ticket.status ticket = lit "resolved")
  then
    let ticket :=
      if bool_decide (Ticket.status ticket <> lit "resolved")
         && bool_decide (Ticket.completed_at ticket = None)
      then Ticket.set_completed_at (Some now) ticket
      else ticket in
    Ticket.set_status (lit "resolved") ticket
  else ticket.

(** The assignments of the branch [action == "close"]. *)
Definition on_close (ticket : Ticket.t) : Ticket.t :=
  if bool_decide (Ticket.status ticket <> lit "closed")
  then Ticket.set_status (lit "closed") ticket
  else ticket.

(** The POST branch.  [form_ticket_id] is the row the field [ticket_id] of
    the form names ([None]: no such field); [now_completed] and [now_note]
    are the two readings of [datetime.now(WIB)]. *)
Definition admin_tickets_post (admin : User.t) (form_action : option str)
  (form_ticket_id : option Z) (form_admin_note : option str)
  (now_completed now_note : datetime) : handler :=
  fun s =>
    let back := Redirect (lit "admin_tickets") in
    let action := form_action in
    let admin_note := strip (form_or_empty form_admin_note) in
    if negb (truthy admin_note) then
      (flash_and
         (lit "Catatan admin wajib diisi sebelum melakukan aksi pada tiket.")
         (lit "danger") back, s)
    else
      match form_ticket_id ≫= (fun k => pair k <$> tickets (working s) !! k)
      with
      | None => (flash_and (lit "Ticket not found.") (lit "danger") back, s)
      | Some (k, ticket) =>
          let ticket := assign_if_unassigned admin ticket in
          let s := put_ticket k ticket s in
          if bool_decide (Ticket.status ticket = lit "closed") then
            (flash_and (lit "Ticket is already closed and cannot be modified.")
               (lit "danger") back, s)
          else
            let log target s :=
              log_action (Some (User.id admin)) (lit "ticket_update_status")
                (str_of_int (Ticket.id ticket) ++ target) s in
            let '(ticket, s) :=
              if bool_decide (action = Some (lit "accept")) then
                let ticket := on_accept ticket in
                (ticket, log (lit ":in_progress") (put_ticket k ticket s))
              else if bool_decide (action = Some (lit "complete")) then
                let ticket := on_complete now_completed ticket in
                (ticket, log (lit ":resolved") (put_ticket k ticket s))
              else if bool_decide (action = Some (lit "close")) then
                let ticket := on_close ticket in
                (ticket, log (lit ":closed") (put_ticket k ticket s))
              else (ticket, s) in
            let ticket := append_note now_note admin_note ticket in
            let s := commit (put_ticket k ticket s) in
            (flash_and (lit "Ticket updated successfully.") (lit "success")
               back, s)
      end.

(** The view behind [/admin/tickets].  The GET branch only reads. *)
Definition admin_tickets (method : http_method) (uid : option Z)
  (form_action : option str) (form_ticket_id : option Z)
  (form_admin_note : option str) (now_completed now_note : datetime)
  : handler :=
  login_required uid (admin_required uid (fun s =>
    match current_user uid s with
    | None => (plain InternalServerError, s)
    | Some admin =>
        match method with
        | POST =>
            admin_tickets_post admin form_action form_ticket_id
              form_admin_note now_completed now_note s
        | GET => (plain (Page (lit "Admin " ++ [8212%N] ++ lit " Kendala Sistem")), s)
        end
    end)).

(** ** The chat routes *)

(** Position of a creation time in [order_by(created_at.asc())]; rows
    without one come last. *)
Definition created_key (m : TicketMessage.t) : option Z :=
  (fun dt => wall_seconds dt * 1000000 + microsecond dt)
    <$> TicketMessage.created_at m.

Definition created_le (a b : TicketMessage.t) : bool :=
  match created_key a, created_key b with
  | Some x, Some y => x <=? y
  | Some _, None => true
  | None, Some _ => false
  | None, None => true
  end.

Fixpoint insert_sorted (m : TicketMessage.t) (l : list TicketMessage.t)
  : list TicketMessage.t :=
  match l with
  | [] => [m]
  | x :: l' => if created_le x m then x :: insert_sorted m l' else m :: l
  end.

Definition order_by_created_at (l : list TicketMessage.t)
  : list TicketMessage.t :=
  foldr insert_sorted [] (rev l).

(** [TicketMessage.query.filter_by(ticket_id=ticket_id)] *)
Definition messages_of (ticket_id : Z) (rows : list TicketMessage.t)
  : list TicketMessage.t :=
  filter (fun m => TicketMessage.ticket_id m = ticket_id) rows.

(** One turn of the marking loop for an admin reader: the row and whether
    it was written. *)
Definition mark_admin (uid : Z) (m : TicketMessage.t)
  : TicketMessage.t * bool :=
  if negb (TicketMessage.sender_id m =? uid)
     && negb (TicketMessage.is_read_admin m)
  then (TicketMessage.set_is_read_admin true m, true)
  else (m, false).

(** The same for any other reader. *)
Definition mark_user (uid : Z) (m : TicketMessage.t)
  : TicketMessage.t * bool :=
  if negb (TicketMessage.sender_id m =? uid)
     && negb (TicketMessage.is_read_user m)
  then (TicketMessage.set_is_read_user true m, true)
  else (m, false).

(** The loop [for m in msgs], run over the table: the rows of the ticket
    are the ones in [msgs], every other row is passed over.  [changed] is
    the flag of the source. *)
Fixpoint mark_rows (mark : TicketMessage.t -> TicketMessage.t * bool)
  (ticket_id : Z) (rows : list TicketMessage.t) (changed : bool)
  : list TicketMessage.t * bool :=
  match rows with
  | [] => ([], changed)
  | m :: rows' =>
      if TicketMessage.ticket_id m =? ticket_id then
        let '(m', c) := mark m in
        let '(rest, changed') := mark_rows mark ticket_id rows' (changed || c) in
        (m' :: rest, changed')
      else
        let '(rest, changed') := mark_rows mark ticket_id rows' changed in
        (m :: rest, changed')
  end.

(** One element of the JSON answer; [None] when [astimezone] raises. *)
Definition render_entry (local : Z) (db : Database) (user : User.t)
  (m : TicketMessage.t) : option chat_entry :=
  let sender :=
    match users db !! TicketMessage.sender_id m with
    | Some u => User.full_name u
    | None => []
    end in
  let me := TicketMessage.sender_id m =? User.id user in
  match TicketMessage.created_at m with
  | Some dt =>
      (fun dt' => mk_entry sender me (TicketMessage.message m)
                    (strftime_dbYHM_WIB dt')) <$> astimezone local dt WIB
  | None => Some (mk_entry sender me (TicketMessage.message m) [])
  end.

Definition chat_messages (local : Z) (uid : option Z) (ticket_id : Z)
  : handler :=
  login_required uid (fun s =>
    match tickets (working s) !! ticket_id with
    | None => (plain NotFound, s)
    | Some ticket =>
        match current_user uid s with
        | None => (plain InternalServerError, s)
        | Some user =>
            if bool_decide (User.role user <> lit "admin")
               && negb (Ticket.user_id ticket =? User.id user)
            then (plain (Json []), s)
            else
              let '(rows, changed) :=
                if bool_decide (User.role user = lit "admin") then
                  mark_rows (mark_admin (User.id user)) ticket_id
                    (ticket_messages (working s)) false
                else
                  mark_rows (mark_user (User.id user)) ticket_id
                    (ticket_messages (working s)) false in
              let s := set_messages rows s in
              let s := if changed then commit s else s in
              let msgs := order_by_created_at (messages_of ticket_id rows) in
              match mapM (render_entry local (working s) user) msgs with
              | Some entries => (plain (Json entries), s)
              | None => (plain InternalServerError, s)
              end
        end
    end).

Definition chat_send (uid : option Z) (ticket_id : Z)
  (form_message : option str) (now : datetime) : handler :=
  login_required uid (fun s =>
    match tickets (working s) !! ticket_id with
    | None => (plain NotFound, s)
    | Some ticket =>
        match current_user uid s with
        | None => (plain InternalServerError, s)
        | Some user =>
            if bool_decide (User.role user <> lit "admin")
               && negb (Ticket.user_id ticket =? User.id user)
            then (plain (JsonSuccess false), s)
            else
              let msg := strip (form_or_empty form_message) in
              if negb (truthy msg) then (plain (JsonSuccess false), s)
              else
                let is_admin := bool_decide (User.role user = lit "admin") in
                let s :=
                  add_message (fun k =>
                    TicketMessage.mk k ticket_id (User.id user) msg (Some now)
                      is_admin (negb is_admin)) s in
                let s := commit s in
                (plain (JsonSuccess true), s)
        end
    end).

(** ** Requests *)

(** A handler run as one request: a fresh session on the stored rows, and
    what is stored when the request ends. *)
Definition run (h : handler) (db : Database) : reply * Database :=
  let '(r, s) := h (begin db) in (r, teardown s).

Inductive request :=
| TicketNew (method : http_method) (uid : option Z) (overhead : N)
    (form_category form_description : option str) (attachment : option upload)
    (utcnow : datetime)
| AdminTickets (method : http_method) (uid : option Z)
    (form_action : option str) (form_ticket_id : option Z)
    (form_admin_note : option str) (now_completed now_note : datetime)
| ChatMessages (local : Z) (uid : option Z) (ticket_id : Z)
| ChatSend (uid : option Z) (ticket_id : Z) (form_message : option str)
    (now : datetime).

Definition serve (rq : request) (db : Database) : reply * Database :=
  match rq with
  | TicketNew m u o c d a t => run (ticket_new m u o c d a t) db
  | AdminTickets m u a k n t1 t2 => run (admin_tickets m u a k n t1 t2) db
  | ChatMessages l u k => run (chat_messages l u k) db
  | ChatSend u k msg t => run (chat_send u k msg t) db
  end.

(** The rows stored after a sequence of requests. *)
Definition serve_all (rqs : list request) (db : Database) : Database :=
  foldl (fun db rq => (serve rq db).2) db rqs.

(** * Notions used in the statements *)

(** ** Text *)

(** Nothing to strip at the left end. *)
Definition clean_head (s : str) : Prop :=
  match s with c :: _ => isspace c = false | [] => True end.

(** Nothing to strip at the right end. *)
Definition clean_last (s : str) : Prop := clean_head (rev s).

(** One entry of the running log of notes. *)
Definition note_entry (now : datetime) (note : str) : str :=
  lit "[" ++ strftime_dbYHM_WIB now ++ lit "] " ++ note.

(** ** Dates *)

(** Year, month and day as [strftime] expects them. *)
Definition plausible_date (dt : datetime) : Prop :=
  1 <= year dt <= 9999 /\ 1 <= month dt <= 12 /\ 1 <= day dt <= 31.

(** The date [format_ticket_number] prints. *)
Definition number_date (local : Z) (now : datetime) (ticket : Ticket.t)
  : datetime :=
  match Ticket.created_at ticket with
  | None => now
  | Some dt =>
      match astimezone local dt WIB with
      | Some dt' => dt'
      | None =>
          match astimezone local (replace_tzinfo dt (Some utc)) WIB with
          | Some dt' => dt'
          | None => dt
          end
      end
  end.

(** ** The admin view *)

Definition success_flash : str * str :=
  (lit "Ticket updated successfully.", lit "success").

(** The action went through: the handler reached its last [flash]. *)
Definition succeeded (r : reply) : Prop := flashed r = [success_flash].

(** The ticket after the branch on [action]. *)
Definition acted (action : option str) (now : datetime) (t : Ticket.t)
  : Ticket.t :=
  if bool_decide (action = Some (lit "accept")) then on_accept t
  else if bool_decide (action = Some (lit "complete")) then on_complete now t
  else if bool_decide (action = Some (lit "close")) then on_close t
  else t.

(** The ticket a successful POST stores. *)
Definition updated (admin : User.t) (action : option str)
  (form_admin_note : option str) (now_completed now_note : datetime)
  (t : Ticket.t) : Ticket.t :=
  append_note now_note (strip (form_or_empty form_admin_note))
    (acted action now_completed (assign_if_unassigned admin t)).

(** ** Status *)

Definition valid_status (s : str) : Prop :=
  s = lit "open" \/ s = lit "in_progress" \/ s = lit "resolved"
  \/ s = lit "closed".

(** Position in [open -> in_progress -> resolved -> closed]. *)
Definition rank (s : str) : Z :=
  if bool_decide (s = lit "open") then 0
  else if bool_decide (s = lit "in_progress") then 1
  else if bool_decide (s = lit "resolved") then 2
  else if bool_decide (s = lit "closed") then 3
  else -1.

(** The status after the branch on [action], from the status before. *)
Definition next_status (action : option str) (s : str) : str :=
  if bool_decide (action = Some (lit "accept")) then
    if bool_decide (s = lit "open") then lit "in_progress" else s
  else if bool_decide (action = Some (lit "complete")) then
    if bool_decide (s = lit "in_progress" \/ s = lit "resolved")
    then lit "resolved" else s
  else if bool_decide (action = Some (lit "close")) then
    if bool_decide (s <> lit "closed") then lit "closed" else s
  else s.

(** ** Invariants of the stored rows *)

(** Primary keys in use lie below the sequence. *)
Definition db_wf (db : Database) : Prop :=
  forall k t, tickets db !! k = Some t -> k < next_ticket_id db.

(** Tickets that are still [open] or [in_progress] have no completion
    time. *)
Definition pending_uncompleted (db : Database) : Prop :=
  forall k t,
    tickets db !! k = Some t ->
    Ticket.status t = lit "open" \/ Ticket.status t = lit "in_progress" ->
    Ticket.completed_at t = None.

(** ** New tickets *)

Definition new_ticket (user : User.t) (c d : option str) (path : option str)
  (utcnow : datetime) (k : Z) : Ticket.t :=
  let category := strip (form_or_empty c) in
  let description := strip (form_or_empty d) in
  Ticket.mk k (User.id user) (short_title_of description) description
    (if truthy category then Some category else None) path (lit "open")
    (Some utcnow) None None None.

(** ** Chat *)

(** The reader may open the thread: an admin, or the owner of the ticket. *)
Definition may_chat (user : User.t) (ticket : Ticket.t) : Prop :=
  User.role user = lit "admin" \/ Ticket.user_id ticket = User.id user.

(** A message after the thread of ticket [tid] was opened by reader [uid]. *)
Definition read_by (is_admin : bool) (uid tid : Z) (m : TicketMessage.t)
  : TicketMessage.t :=
  if (TicketMessage.ticket_id m =? tid)
     && negb (TicketMessage.sender_id m =? uid)
  then
    if is_admin then TicketMessage.set_is_read_admin true m
    else TicketMessage.set_is_read_user true m
  else m.

Definition mark_of (is_admin : bool) (uid : Z) :=
  if is_admin then mark_admin uid else mark_user uid.

(** The row [chat_send] stores. *)
Definition sent_message (user : User.t) (tid : Z) (form_message : option str)
  (now : datetime) (k : Z) : TicketMessage.t :=
  TicketMessage.mk k tid (User.id user) (strip (form_or_empty form_message))
    (Some now) (bool_decide (User.role user = lit "admin"))
    (negb (bool_decide (User.role user = lit "admin"))).

Definition reader_flag (is_admin : bool) (m : TicketMessage.t) : bool :=
  if is_admin then TicketMessage.is_read_admin m
  else TicketMessage.is_read_user m.

Definition other_flag (is_admin : bool) (m : TicketMessage.t) : bool :=
  if is_admin then TicketMessage.is_read_user m
  else TicketMessage.is_read_admin m.

(** ** Sample rows *)

Definition alice : User.t := User.mk 1 (lit "Alice") (lit "user").
Definition root : User.t := User.mk 2 (lit "Root") (lit "admin").
Definition bob : User.t := User.mk 3 (lit "Bob") (lit "user").

Definition sample_utcnow : datetime := mk_datetime 2024 1 15 20 30 0 0 None.
Definition sample_now : datetime :=
  mk_datetime 2024 1 16 3 31 0 0 (Some WIB).
Definition sample_later : datetime :=
  mk_datetime 2024 1 17 9 5 0 0 (Some WIB).

Definition sample_db : Database :=
  mk_db (<[1 := alice]> (<[2 := root]> (<[3 := bob]> ∅))) ∅ [] [] 1 1.

(** Alice reports a problem. *)
Definition sample_report : request :=
  TicketNew POST (Some 1) 400 (Some (lit "Tugas"))
    (Some (lit "  Cannot upload my assignment ")) None sample_utcnow.

Definition sample_open : Database := (serve sample_report sample_db).2.

Definition sample_ticket : Ticket.t :=
  Ticket.mk 1 1 (lit "Cannot upload my assignment")
    (lit "Cannot upload my assignment") (Some (lit "Tugas")) None (lit "open")
    (Some sample_utcnow) None None None.

(** An admin action of Root on ticket 1. *)
Definition sample_action (a : string) (note : string) : request :=
  AdminTickets POST (Some 2) (Some (lit a)) (Some 1) (Some (lit note))
    sample_now sample_later.

Definition sample_in_progress : Database :=
  (serve (sample_action "accept" "on it") sample_open).2.

Definition sample_closed : Database :=
  (serve (sample_action "close" "duplicate") sample_open).2.

Definition sample_closed_ticket : Ticket.t :=
  Ticket.mk 1 1 (lit "Cannot upload my assignment")
    (lit "Cannot upload my assignment") (Some (lit "Tugas")) None
    (lit "closed") (Some sample_utcnow) None
    (Some (lit "[17 Jan 2024, 09:05 WIB] duplicate")) (Some 2).

Definition sample_say : request :=
  ChatSend (Some 1) 1 (Some (lit " any news? ")) sample_now.

Definition sample_chat : Database := (serve sample_say sample_open).2.

Definition sample_message : TicketMessage.t :=
  TicketMessage.mk 1 1 1 (lit "any news?") (Some sample_now) false true.

(** The thousandth ticket, reported on 15 January 2024 at 20:30 UTC. *)
Definition thousandth_ticket : Ticket.t :=
  Ticket.mk 1000 1 (lit "Cannot upload my assignment")
    (lit "Cannot upload my assignment") None None (lit "open")
    (Some sample_utcnow) None None None.

(** * Further notions *)

(** ** Numbers *)

(** The number a string of decimal digits denotes. *)
Definition digits_value (s : str) : Z :=
  foldl (fun a c => a * 10 + (Z.of_N c - 48)) 0 s.

(** ** The admin view, continued *)

(** The reply of [admin_required] to a user who is not an admin. *)
Definition no_admin_access : reply :=
  flash_and (lit "Anda tidak memiliki akses admin.") (lit "danger")
    (Redirect (lit "dashboard")).

(** * Properties *)

Arguments lit : simpl never.
Arguments strip : simpl never.
Arguments strftime_dbYHM_WIB : simpl never.
Arguments str_of_int : simpl never.

Ltac lit_discr :=
  let H := fresh in
  intros H; vm_compute in H; discriminate H.

(** ** The model on sample values *)

Example ord2ymd_roundtrip_sample :
  ord2ymd (ymd2ord 2024 2 29) = (2024, 2, 29)
  /\ ord2ymd (ymd2ord 2023 12 31) = (2023, 12, 31)
  /\ ord2ymd (ymd2ord 2000 3 1) = (2000, 3, 1)
  /\ ord2ymd 1 = (1, 1, 1).
Proof. repeat split; reflexivity. Qed.

Example format_0d_samples :
  format_0d 3 7 = lit "007" /\ format_0d 3 1000 = lit "1000"
  /\ format_0d 3 (-5) = lit "-05" /\ format_0d 2 0 = lit "00".
Proof. repeat split; reflexivity. Qed.

Example strip_sample :
  strip (lit "  hi there  ") = lit "hi there" /\ strip (lit "   ") = [].
Proof. split; reflexivity. Qed.

(** ** Text *)

Lemma truthy_nil (s : str) : truthy s = false <-> s = [].
Proof. destruct s; simpl; split; congruence. Qed.

Lemma truthy_true (s : str) : truthy s = true <-> s <> [].
Proof. destruct s; simpl; split; congruence. Qed.

Lemma lstrip_clean (s : str) : clean_head (lstrip s).
Proof.
  induction s as [|c s IH]; simpl; [exact I|].
  destruct (isspace c) eqn:E; [exact IH | exact E].
Qed.

Lemma lstrip_id (s : str) : clean_head s -> lstrip s = s.
Proof. destruct s as [|c s]; simpl; [done|]. by intros ->. Qed.

Lemma lstrip_snoc (l : str) (c : N) :
  isspace c = false -> exists l', lstrip (l ++ [c]) = l' ++ [c].
Proof.
  intros Hc. induction l as [|a l IH]; simpl.
  - rewrite Hc. by exists [].
  - destruct (isspace a); [exact IH|]. by exists (a :: l).
Qed.

Lemma rstrip_clean (s : str) : clean_last (rstrip s).
Proof. unfold clean_last, rstrip. rewrite rev_involutive. apply lstrip_clean. Qed.

Lemma rstrip_id (s : str) : clean_last s -> rstrip s = s.
Proof.
  unfold clean_last, rstrip. intros H.
  by rewrite (lstrip_id _ H), rev_involutive.
Qed.

Lemma rstrip_keeps_head (s : str) : clean_head s -> clean_head (rstrip s).
Proof.
  destruct s as [|c s]; [done|]. simpl. intros Hc. unfold rstrip. simpl.
  destruct (lstrip_snoc (rev s) c Hc) as [l' ->].
  rewrite rev_app_distr. simpl. exact Hc.
Qed.

Lemma strip_clean (s : str) : clean_head (strip s) /\ clean_last (strip s).
Proof.
  split; [apply rstrip_keeps_head, lstrip_clean | apply rstrip_clean].
Qed.

Lemma strip_id (s : str) : clean_head s -> clean_last s -> strip s = s.
Proof. intros H1 H2. unfold strip. by rewrite (lstrip_id _ H1), rstrip_id. Qed.

Lemma strip_idemp (s : str) : strip (strip s) = strip s.
Proof. destruct (strip_clean s). by apply strip_id. Qed.

Lemma clean_head_app (a b : str) : a <> [] -> clean_head a -> clean_head (a ++ b).
Proof. by destruct a. Qed.

Lemma clean_last_app (a b : str) : b <> [] -> clean_last b -> clean_last (a ++ b).
Proof.
  unfold clean_last. intros Hb H. rewrite rev_app_distr.
  apply clean_head_app; [|done]. intros E. apply Hb.
  by rewrite <- (rev_involutive b), E.
Qed.

(** ** Sessions and decorators *)

Lemma current_user_begin (uid : option Z) (db : Database) (user : User.t) :
  current_user uid (begin db) = Some user ->
  exists u, uid = Some u /\ u <> 0 /\ users db !! u = Some user.
Proof.
  destruct uid as [u|]; simpl; [|done].
  destruct (Z.eqb_spec u 0); [done|]. eauto.
Qed.

Lemma login_required_pass (uid : option Z) (f : handler) (s : Session)
  (user : User.t) :
  current_user uid s = Some user -> login_required uid f s = f s.
Proof.
  destruct uid as [u|]; simpl; [|done]. by destruct (u =? 0).
Qed.

Lemma login_required_run (uid : option Z) (f : handler) (db : Database) :
  run (login_required uid f) db = run f db
  \/ run (login_required uid f) db = (plain (Redirect (lit "login")), db).
Proof.
  unfold run, login_required. destruct uid as [u|]; [|by right].
  destruct (u =? 0); [by right | by left].
Qed.

(** ** [admin_tickets] as a function of the stored rows *)

Lemma assign_status (admin : User.t) (t : Ticket.t) :
  Ticket.status (assign_if_unassigned admin t) = Ticket.status t.
Proof. unfold assign_if_unassigned. by destruct (Ticket.assigned_admin_id t). Qed.

(** What one POST of an admin leaves stored: nothing new when it is turned
    down, otherwise the one ticket rewritten and at most one log row. *)
Lemma admin_tickets_post_run (admin : User.t) (a : option str)
  (k : option Z) (n : option str) (t1 t2 : datetime) (db : Database) :
  (exists r, run (admin_tickets_post admin a k n t1 t2) db = (r, db)
             /\ ~ succeeded r)
  \/ (exists key t r logs,
        k = Some key /\ tickets db !! key = Some t
        /\ strip (form_or_empty n) <> []
        /\ Ticket.status t <> lit "closed"
        /\ succeeded r
        /\ run (admin_tickets_post admin a k n t1 t2) db =
             (r, mk_db (users db)
                   (<[key := updated admin a n t1 t2 t]> (tickets db))
                   (ticket_messages db) (activity_logs db ++ logs)
                   (next_ticket_id db) (next_message_id db))).
Proof.
  unfold run, admin_tickets_post.
  destruct (truthy (strip (form_or_empty n))) eqn:Hn; simpl.
  2:{ left. eexists. split; [reflexivity|]. unfold succeeded. simpl. lit_discr. }
  destruct k as [key|]; simpl.
  2:{ left. eexists. split; [reflexivity|]. unfold succeeded. simpl. lit_discr. }
  destruct (tickets db !! key) as [t|] eqn:Ht; simpl.
  2:{ left. eexists. split; [reflexivity|]. unfold succeeded. simpl. lit_discr. }
  rewrite assign_status.
  case_bool_decide as Hc; simpl.
  { left. eexists. split; [reflexivity|]. unfold succeeded. simpl. lit_discr. }
  right. apply truthy_true in Hn.
  unfold updated, acted.
  exists key, t,
    (flash_and (lit "Ticket updated successfully.") (lit "success")
       (Redirect (lit "admin_tickets"))).
  repeat case_bool_decide; simpl; eexists;
    (split_and!; [done | done | done | done | done |]);
    unfold teardown, commit, put_ticket, log_action, commit, add_log,
      with_working; simpl; rewrite ?insert_insert_eq;
    first [ reflexivity | by rewrite (app_nil_r (activity_logs db)) ].
Qed.

Lemma admin_required_run (uid : option Z) (f : handler) (db : Database) :
  (exists r, run (admin_required uid f) db = (r, db) /\ ~ succeeded r)
  \/ (exists admin, current_user uid (begin db) = Some admin
                    /\ User.role admin = lit "admin"
                    /\ run (admin_required uid f) db = run f db).
Proof.
  unfold run, admin_required.
  destruct (current_user uid (begin db)) as [user|] eqn:Hu.
  - case_bool_decide as Hr.
    + left. eexists. split; [reflexivity|]. unfold succeeded. simpl. lit_discr.
    + right. exists user. split; [done|]. split; [|done].
      by destruct (decide (User.role user = lit "admin")).
  - left. eexists. split; [reflexivity|]. unfold succeeded. simpl. lit_discr.
Qed.

(** The view with its decorators: a request that is not a POST of an admin
    naming an open ticket with a note stores nothing. *)
Lemma admin_tickets_run (m : http_method) (uid : option Z) (a : option str)
  (k : option Z) (n : option str) (t1 t2 : datetime) (db : Database) :
  (exists r, run (admin_tickets m uid a k n t1 t2) db = (r, db)
             /\ ~ succeeded r)
  \/ (exists admin key t r logs,
        m = POST /\ current_user uid (begin db) = Some admin
        /\ User.role admin = lit "admin"
        /\ k = Some key /\ tickets db !! key = Some t
        /\ strip (form_or_empty n) <> []
        /\ Ticket.status t <> lit "closed"
        /\ succeeded r
        /\ run (admin_tickets m uid a k n t1 t2) db =
             (r, mk_db (users db)
                   (<[key := updated admin a n t1 t2 t]> (tickets db))
                   (ticket_messages db) (activity_logs db ++ logs)
                   (next_ticket_id db) (next_message_id db))).
Proof.
  unfold admin_tickets.
  destruct (login_required_run uid
              (admin_required uid (fun s =>
                 match current_user uid s with
                 | None => (plain InternalServerError, s)
                 | Some admin =>
                     match m with
                     | POST => admin_tickets_post admin a k n t1 t2 s
                     | GET =>
                         (plain (Page (lit "Admin " ++ [8212%N]
                                       ++ lit " Kendala Sistem")), s)
                     end
                 end)) db) as [-> | ->].
  2:{ left. eexists. split; [reflexivity|]. unfold succeeded. simpl. lit_discr. }
  match goal with
  | |- context [run (admin_required uid ?f) db] =>
      destruct (admin_required_run uid f db)
        as [(r & Hr & Hs) | (admin & Hu & Hrole & ->)]
  end.
  { left. by exists r. }
  unfold run. rewrite Hu.
  destruct m.
  { left. simpl. eexists. split; [reflexivity|]. unfold succeeded. simpl.
    lit_discr. }
  fold (run (admin_tickets_post admin a k n t1 t2) db).
  destruct (admin_tickets_post_run admin a k n t1 t2 db)
    as [(r & Hr & Hs) | (key & t & r & logs & H)].
  - left. by exists r.
  - right. exists admin, key, t, r, logs.
    destruct H as (? & ? & ? & ? & ? & ?). by split_and!.
Qed.

(** ** [ticket_new] as a function of the stored rows *)

Lemma ticket_new_too_large (uid : option Z) (o : N) (c d : option str)
  (a : option upload) (utcnow : datetime) (db : Database) (user : User.t) :
  current_user uid (begin db) = Some user ->
  MAX_CONTENT_LENGTH < content_length o a ->
  run (ticket_new POST uid o c d a utcnow) db
  = (plain RequestEntityTooLarge, db).
Proof.
  intros Hu Hl. unfold run, ticket_new.
  rewrite (login_required_pass _ _ _ _ Hu), Hu.
  apply Z.ltb_lt in Hl. by rewrite Hl.
Qed.

Lemma ticket_new_post_run (uid : option Z) (o : N) (c d : option str)
  (a : option upload) (utcnow : datetime) (db : Database) (user : User.t) :
  current_user uid (begin db) = Some user ->
  content_length o a <= MAX_CONTENT_LENGTH ->
  (strip (form_or_empty d) = [] ->
     (run (ticket_new POST uid o c d a utcnow) db).2 = db)
  /\ (strip (form_or_empty d) <> [] ->
      exists r path,
        run (ticket_new POST uid o c d a utcnow) db =
          (r, mk_db (users db)
                (<[next_ticket_id db :=
                     new_ticket user c d path utcnow (next_ticket_id db)]>
                   (tickets db))
                (ticket_messages db)
                (activity_logs db ++
                   [ActivityLog.mk (Some (User.id user)) (lit "ticket_create")
                      (short_title_of (strip (form_or_empty d)))])
                (next_ticket_id db + 1) (next_message_id db))
        /\ body r = Redirect (lit "tickets")).
Proof.
  intros Hu Hl. unfold run, ticket_new.
  rewrite (login_required_pass _ _ _ _ Hu), Hu.
  assert ((MAX_CONTENT_LENGTH <? content_length o a) = false) as ->
    by (apply Z.ltb_ge; lia).
  split; intros Hd.
  - apply truthy_nil in Hd. by rewrite Hd.
  - apply truthy_true in Hd. rewrite Hd. simpl.
    destruct a as [up|]; simpl.
    + destruct (allowed_ext _); simpl;
        [destruct (300 * 1024 <? Z.of_N (data_len up))|]; simpl;
        eexists _, _;
        (split;
         [unfold teardown, commit, put_ticket, log_action, commit, add_log,
            with_working, new_ticket; simpl; rewrite ?insert_insert_eq;
          reflexivity
         |reflexivity]).
    + eexists _, _. split; reflexivity.
Qed.

Lemma ticket_new_run (m : http_method) (uid : option Z) (o : N)
  (c d : option str) (a : option upload) (utcnow : datetime)
  (db : Database) :
  (run (ticket_new m uid o c d a utcnow) db).2 = db
  \/ exists user path log,
       current_user uid (begin db) = Some user
       /\ m = POST /\ strip (form_or_empty d) <> []
       /\ (run (ticket_new m uid o c d a utcnow) db).2 =
            mk_db (users db)
              (<[next_ticket_id db :=
                   new_ticket user c d path utcnow (next_ticket_id db)]>
                 (tickets db))
              (ticket_messages db) (activity_logs db ++ [log])
              (next_ticket_id db + 1) (next_message_id db).
Proof.
  destruct (current_user uid (begin db)) as [user|] eqn:Hu.
  - destruct m.
    + left. unfold run, ticket_new.
      by rewrite (login_required_pass _ _ _ _ Hu), Hu.
    + destruct (Z.lt_ge_cases MAX_CONTENT_LENGTH (content_length o a))
        as [Hl|Hl].
      { left. by rewrite (ticket_new_too_large uid o c d a utcnow db user). }
      destruct (ticket_new_post_run uid o c d a utcnow db user Hu Hl)
        as [H1 H2].
      destruct (decide (strip (form_or_empty d) = [])) as [E|E]; [left; by auto|].
      right. destruct (H2 E) as (r & path & Hr & _).
      exists user, path. eexists. rewrite Hr. by split_and!.
  - left. unfold run, ticket_new, login_required.
    destruct uid as [u|]; [|done]. destruct (u =? 0) eqn:E; [done|].
    by rewrite Hu.
Qed.

(** ** The chat routes as functions of the stored rows *)

Lemma chat_guard (user : User.t) (ticket : Ticket.t) :
  bool_decide (User.role user <> lit "admin")
  && negb (Ticket.user_id ticket =? User.id user) = false
  <-> may_chat user ticket.
Proof.
  unfold may_chat. case_bool_decide as H; simpl.
  - destruct (Z.eqb_spec (Ticket.user_id ticket) (User.id user)); simpl.
    + split; [by right | done].
    + split; [done | by intros [?|?]].
  - split; [|done]. intros _. left.
    by destruct (decide (User.role user = lit "admin")).
Qed.

Lemma mark_of_quiet (is_admin : bool) (uid : Z) (m : TicketMessage.t) :
  (mark_of is_admin uid m).2 = false -> (mark_of is_admin uid m).1 = m.
Proof.
  destruct is_admin; simpl; unfold mark_admin, mark_user;
    by destruct (_ && _).
Qed.

Lemma mark_of_read_by (is_admin : bool) (uid tid : Z) (m : TicketMessage.t) :
  TicketMessage.ticket_id m = tid ->
  (mark_of is_admin uid m).1 = read_by is_admin uid tid m.
Proof.
  intros <-. unfold read_by. rewrite Z.eqb_refl. simpl.
  destruct m as [i t s msg c ra ru].
  destruct is_admin; simpl; unfold mark_admin, mark_user; simpl;
    destruct (s =? uid); simpl; [done| |done|].
  - by destruct ra.
  - by destruct ru.
Qed.

Lemma mark_rows_fst (is_admin : bool) (uid tid : Z)
  (rows : list TicketMessage.t) (changed : bool) :
  (mark_rows (mark_of is_admin uid) tid rows changed).1
  = map (read_by is_admin uid tid) rows.
Proof.
  revert changed. induction rows as [|m rows IH]; intros changed; [done|].
  simpl. destruct (Z.eqb_spec (TicketMessage.ticket_id m) tid) as [E|E].
  - destruct (mark_of is_admin uid m) as [m' c] eqn:Hm.
    specialize (IH (changed || c)).
    destruct (mark_rows _ tid rows (changed || c)) as [rest ch'].
    simpl in *. rewrite IH. f_equal.
    rewrite <- (mark_of_read_by is_admin uid tid m E). by rewrite Hm.
  - specialize (IH changed).
    destruct (mark_rows _ tid rows changed) as [rest ch'].
    simpl in *. rewrite IH. f_equal. unfold read_by.
    by destruct (Z.eqb_spec (TicketMessage.ticket_id m) tid).
Qed.

Lemma mark_rows_flag_mono (mark : TicketMessage.t -> TicketMessage.t * bool)
  (tid : Z) (rows : list TicketMessage.t) :
  (mark_rows mark tid rows true).2 = true.
Proof.
  induction rows as [|m rows IH]; [done|]. simpl.
  destruct (TicketMessage.ticket_id m =? tid).
  - destruct (mark m) as [m' c]. simpl.
    destruct (mark_rows mark tid rows true) as [rest ch']. by simpl in *.
  - destruct (mark_rows mark tid rows true) as [rest ch']. by simpl in *.
Qed.

(** When the flag [changed] stays down, no row was written. *)
Lemma mark_rows_quiet (is_admin : bool) (uid tid : Z)
  (rows : list TicketMessage.t) :
  (mark_rows (mark_of is_admin uid) tid rows false).2 = false ->
  (mark_rows (mark_of is_admin uid) tid rows false).1 = rows.
Proof.
  induction rows as [|m rows IH]; [done|]. simpl.
  destruct (TicketMessage.ticket_id m =? tid).
  - destruct (mark_of is_admin uid m) as [m' c] eqn:Hm.
    destruct c.
    + pose proof (mark_rows_flag_mono (mark_of is_admin uid) tid rows) as Ht.
      simpl. destruct (mark_rows _ tid rows true) as [rest ch'].
      simpl in *. congruence.
    + simpl. destruct (mark_rows _ tid rows false) as [rest ch'].
      simpl in *. intros ->. rewrite IH; [|done]. f_equal.
      pose proof (mark_of_quiet is_admin uid m) as Hq. rewrite Hm in Hq.
      by apply Hq.
  - destruct (mark_rows _ tid rows false) as [rest ch'].
    simpl in *. intros ->. by rewrite IH.
Qed.

(** What [chat_messages] leaves stored for a reader who may open the
    thread, whatever it answers. *)
Lemma chat_messages_run (local : Z) (uid : option Z) (tid : Z)
  (db : Database) (user : User.t) (ticket : Ticket.t) :
  current_user uid (begin db) = Some user ->
  tickets db !! tid = Some ticket ->
  may_chat user ticket ->
  (run (chat_messages local uid tid) db).2 =
    mk_db (users db) (tickets db)
      (map (read_by (bool_decide (User.role user = lit "admin")) (User.id user)
              tid) (ticket_messages db))
      (activity_logs db) (next_ticket_id db) (next_message_id db).
Proof.
  intros Hu Ht Hm. unfold run, chat_messages.
  rewrite (login_required_pass _ _ _ _ Hu). simpl. rewrite Ht, Hu.
  apply chat_guard in Hm. rewrite Hm.
  set (adm := bool_decide (User.role user = lit "admin")).
  assert (Hrows :
    (if adm then mark_rows (mark_admin (User.id user)) tid (ticket_messages db) false
     else mark_rows (mark_user (User.id user)) tid (ticket_messages db) false)
    = mark_rows (mark_of adm (User.id user)) tid (ticket_messages db) false)
    by by destruct adm.
  rewrite Hrows. clear Hrows.
  pose proof (mark_rows_fst adm (User.id user) tid (ticket_messages db) false)
    as Hfst.
  pose proof (mark_rows_quiet adm (User.id user) tid (ticket_messages db))
    as Hq.
  destruct (mark_rows (mark_of adm (User.id user)) tid (ticket_messages db)
              false) as [rows changed].
  simpl in Hfst, Hq. subst rows.
  destruct changed.
  - destruct (mapM _ _); reflexivity.
  - rewrite (Hq eq_refl). destruct (mapM _ _); simpl; by destruct db.
Qed.

(** A reader who may not open the thread gets the empty list. *)
Lemma chat_messages_denied (local : Z) (uid : option Z) (tid : Z)
  (db : Database) (user : User.t) (ticket : Ticket.t) :
  current_user uid (begin db) = Some user ->
  tickets db !! tid = Some ticket ->
  ~ may_chat user ticket ->
  run (chat_messages local uid tid) db = (plain (Json []), db).
Proof.
  intros Hu Ht Hm. unfold run, chat_messages.
  rewrite (login_required_pass _ _ _ _ Hu). simpl. rewrite Ht, Hu.
  destruct (_ && _) eqn:E; [done|]. by apply chat_guard in E.
Qed.

(** Any call of [chat_messages] touches at most the read flags. *)
Lemma chat_messages_frame (local : Z) (uid : option Z) (tid : Z)
  (db : Database) :
  let db' := (run (chat_messages local uid tid) db).2 in
  users db' = users db /\ tickets db' = tickets db
  /\ activity_logs db' = activity_logs db
  /\ next_ticket_id db' = next_ticket_id db
  /\ next_message_id db' = next_message_id db.
Proof.
  destruct (current_user uid (begin db)) as [user|] eqn:Hu.
  - destruct (tickets db !! tid) as [ticket|] eqn:Ht.
    + destruct (decide (may_chat user ticket)) as [Hm|Hm].
      * simpl. by rewrite (chat_messages_run local uid tid db user ticket).
      * simpl. by rewrite (chat_messages_denied local uid tid db user ticket).
    + unfold run, chat_messages.
      rewrite (login_required_pass _ _ _ _ Hu). simpl. by rewrite Ht.
  - unfold run, chat_messages, login_required.
    destruct uid as [u|]; [|done]. destruct (u =? 0) eqn:E; [done|].
    change (working (begin db)) with db.
    destruct (tickets db !! tid); [|done].
    by rewrite Hu.
Qed.

Lemma chat_send_run (uid : option Z) (tid : Z) (msg : option str)
  (now : datetime) (db : Database) :
  (exists r, run (chat_send uid tid msg now) db = (r, db)
             /\ body r <> JsonSuccess true)
  \/ (exists user ticket,
        current_user uid (begin db) = Some user
        /\ tickets db !! tid = Some ticket
        /\ may_chat user ticket
        /\ strip (form_or_empty msg) <> []
        /\ run (chat_send uid tid msg now) db =
             (plain (JsonSuccess true),
              mk_db (users db) (tickets db)
                (ticket_messages db
                 ++ [sent_message user tid msg now (next_message_id db)])
                (activity_logs db) (next_ticket_id db)
                (next_message_id db + 1))).
Proof.
  unfold run, chat_send, login_required.
  destruct uid as [u|]; [|left; eexists; split; [reflexivity|done]].
  destruct (u =? 0) eqn:E; [left; eexists; split; [reflexivity|done]|].
  destruct (tickets (working (begin db)) !! tid) as [ticket|] eqn:Ht;
    [|left; eexists; split; [reflexivity|done]].
  destruct (current_user (Some u) (begin db)) as [user|] eqn:Hu;
    [|left; eexists; split; [reflexivity|done]].
  destruct (_ && _) eqn:Hg; [left; eexists; split; [reflexivity|done]|].
  apply chat_guard in Hg.
  destruct (truthy (strip (form_or_empty msg))) eqn:Hm; simpl;
    [|left; eexists; split; [reflexivity|done]].
  right. exists user, ticket. apply truthy_true in Hm. by split_and!.
Qed.

(** ** Ticket status *)

Lemma append_note_status (now : datetime) (n : str) (t : Ticket.t) :
  Ticket.status (append_note now n t) = Ticket.status t.
Proof.
  unfold append_note. destruct (truthy n); [|done]. by destruct (truthy _).
Qed.

Lemma acted_status (a : option str) (now : datetime) (t : Ticket.t) :
  Ticket.status (acted a now t) = next_status a (Ticket.status t).
Proof.
  unfold acted, next_status, on_accept, on_complete, on_close.
  repeat case_bool_decide; done.
Qed.

Lemma updated_status (admin : User.t) (a n : option str) (t1 t2 : datetime)
  (t : Ticket.t) :
  Ticket.status (updated admin a n t1 t2 t) = next_status a (Ticket.status t).
Proof.
  unfold updated. by rewrite append_note_status, acted_status, assign_status.
Qed.

Lemma next_status_valid (a : option str) (s : str) :
  valid_status s -> valid_status (next_status a s).
Proof.
  unfold valid_status, next_status. intros Hs.
  repeat case_bool_decide; tauto.
Qed.

Lemma rank_values :
  rank (lit "open") = 0 /\ rank (lit "in_progress") = 1
  /\ rank (lit "resolved") = 2 /\ rank (lit "closed") = 3.
Proof. by vm_compute. Qed.

Lemma next_status_forward (a : option str) (s : str) :
  valid_status s ->
  rank s <= rank (next_status a s)
  /\ (next_status a s <> s ->
      (a = Some (lit "accept") /\ s = lit "open"
       /\ next_status a s = lit "in_progress")
      \/ (a = Some (lit "complete") /\ s = lit "in_progress"
          /\ next_status a s = lit "resolved")
      \/ (a = Some (lit "close") /\ next_status a s = lit "closed")).
Proof.
  destruct rank_values as (R0 & R1 & R2 & R3).
  intros Hs. unfold next_status.
  destruct (decide (a = Some (lit "accept"))) as [Ha|Ha].
  { rewrite (bool_decide_eq_true_2 _ Ha).
    case_bool_decide as Ho; [subst s; rewrite R0, R1; split; [lia|tauto]|].
    split; [lia|done]. }
  rewrite (bool_decide_eq_false_2 _ Ha).
  destruct (decide (a = Some (lit "complete"))) as [Hc|Hc].
  { rewrite (bool_decide_eq_true_2 _ Hc).
    case_bool_decide as Ho; [|split; [lia|done]].
    destruct Ho as [-> | ->]; rewrite ?R1, ?R2; split; try lia; tauto. }
  rewrite (bool_decide_eq_false_2 _ Hc).
  destruct (decide (a = Some (lit "close"))) as [Hx|Hx].
  { rewrite (bool_decide_eq_true_2 _ Hx).
    case_bool_decide as Ho; [|split; [lia|done]].
    rewrite R3. split; [|tauto].
    destruct Hs as [-> | [-> | [-> | ->]]]; rewrite ?R0, ?R1, ?R2, ?R3; lia. }
  rewrite (bool_decide_eq_false_2 _ Hx). split; [lia|done].
Qed.

(** What any request does to the table of tickets: nothing, one fresh
    row, or one row that was not closed rewritten by an admin. *)
Lemma serve_tickets (rq : request) (db : Database) :
  let db' := (serve rq db).2 in
  (tickets db' = tickets db /\ next_ticket_id db' = next_ticket_id db)
  \/ (exists user c d path now,
        tickets db' =
          <[next_ticket_id db :=
              new_ticket user c d path now (next_ticket_id db)]> (tickets db)
        /\ next_ticket_id db' = next_ticket_id db + 1)
  \/ (exists admin a n t1 t2 key t,
        tickets db !! key = Some t
        /\ Ticket.status t <> lit "closed"
        /\ tickets db' = <[key := updated admin a n t1 t2 t]> (tickets db)
        /\ next_ticket_id db' = next_ticket_id db).
Proof.
  destruct rq as [m u o c d a t | m u a k n t1 t2 | l u k | u k msg t];
    cbn [serve].
  - destruct (ticket_new_run m u o c d a t db)
      as [-> | (user & path & log & _ & _ & _ & ->)]; [by left|].
    right; left. by exists user, c, d, path, t.
  - destruct (admin_tickets_run m u a k n t1 t2 db)
      as [(r & -> & _) | (admin & key & x & r & logs & H)]; [by left|].
    destruct H as (_ & _ & _ & _ & Hx & _ & Hc & _ & ->).
    right; right. by exists admin, a, n, t1, t2, key, x.
  - left. destruct (chat_messages_frame l u k db) as (_ & -> & _ & -> & _).
    done.
  - left. destruct (chat_send_run u k msg t db)
      as [(r & -> & _) | (user & ticket & _ & _ & _ & _ & ->)]; done.
Qed.

(** ** Assignment, completion time and notes of the stored ticket *)

Lemma updated_assigned (admin : User.t) (a n : option str) (t1 t2 : datetime)
  (t : Ticket.t) :
  Ticket.assigned_admin_id (updated admin a n t1 t2 t) =
    match Ticket.assigned_admin_id t with
    | None => Some (User.id admin)
    | Some x => Some x
    end.
Proof.
  unfold updated, append_note, acted, on_accept, on_complete, on_close,
    assign_if_unassigned.
  destruct (Ticket.assigned_admin_id t) eqn:E;
    destruct (truthy (strip (form_or_empty n)));
    repeat case_bool_decide; simpl;
    repeat match goal with |- context [if ?b then _ else _] => destruct b end;
    simpl; done.
Qed.

Lemma append_note_completed_at (now : datetime) (n : str) (t : Ticket.t) :
  Ticket.completed_at (append_note now n t) = Ticket.completed_at t.
Proof.
  unfold append_note. destruct (truthy n); [|done]. by destruct (truthy _).
Qed.

Lemma updated_completed_at (admin : User.t) (a n : option str)
  (t1 t2 : datetime) (t : Ticket.t) :
  Ticket.completed_at (updated admin a n t1 t2 t) =
    match Ticket.completed_at t with
    | Some c => Some c
    | None =>
        if bool_decide (a = Some (lit "complete")
                        /\ Ticket.status t = lit "in_progress")
        then Some t1 else None
    end.
Proof.
  assert (lit "in_progress" <> lit "resolved") as Hir by lit_discr.
  assert (Some (lit "complete") <> Some (lit "accept")) as Hca by lit_discr.
  unfold updated. rewrite append_note_completed_at.
  unfold acted, on_accept, on_complete, on_close.
  rewrite !assign_status.
  assert (Ticket.completed_at (assign_if_unassigned admin t)
          = Ticket.completed_at t) as Hc.
  { unfold assign_if_unassigned. by destruct (Ticket.assigned_admin_id t). }
  destruct (Ticket.completed_at t) as [c|] eqn:E;
    repeat case_bool_decide; simpl; rewrite ?Hc, ?E; simpl;
    try done; try congruence; try tauto;
    repeat match goal with
      | H : _ /\ _ |- _ => destruct H
      | H : _ \/ _ |- _ => destruct H
      end; try congruence; try tauto.
Qed.

Lemma updated_admin_note (admin : User.t) (a n : option str)
  (t1 t2 : datetime) (t : Ticket.t) :
  strip (form_or_empty n) <> [] ->
  Ticket.admin_note (updated admin a n t1 t2 t) =
    Some match strip (default [] (Ticket.admin_note t)) with
         | [] => note_entry t2 (strip (form_or_empty n))
         | existing =>
             existing ++ [10%N] ++ note_entry t2 (strip (form_or_empty n))
         end.
Proof.
  intros Hn. apply truthy_true in Hn.
  assert (Ticket.admin_note (acted a t1 (assign_if_unassigned admin t))
          = Ticket.admin_note t) as Ha.
  { unfold acted, on_accept, on_complete, on_close, assign_if_unassigned.
    destruct (Ticket.assigned_admin_id t);
      repeat case_bool_decide; simpl;
      repeat match goal with |- context [if ?b then _ else _] => destruct b end;
      done. }
  unfold updated, append_note, note_entry. rewrite Hn, Ha.
  destruct (strip (default [] (Ticket.admin_note t))) as [|c l]; simpl;
    by rewrite <- ?app_assoc.
Qed.

(** Fields an admin action never writes. *)
Lemma updated_frame (admin : User.t) (a n : option str) (t1 t2 : datetime)
  (t : Ticket.t) :
  let t' := updated admin a n t1 t2 t in
  Ticket.id t' = Ticket.id t /\ Ticket.user_id t' = Ticket.user_id t
  /\ Ticket.title t' = Ticket.title t
  /\ Ticket.description t' = Ticket.description t
  /\ Ticket.category t' = Ticket.category t
  /\ Ticket.attachment_path t' = Ticket.attachment_path t
  /\ Ticket.created_at t' = Ticket.created_at t.
Proof.
  unfold updated, append_note, acted, on_accept, on_complete, on_close,
    assign_if_unassigned.
  destruct (Ticket.assigned_admin_id t);
    destruct (truthy (strip (form_or_empty n)));
    repeat case_bool_decide; simpl;
    repeat match goal with |- context [if ?b then _ else _] => destruct b end;
    simpl; done.
Qed.

(** ** Well-formed keys *)

Lemma serve_wf (rq : request) (db : Database) :
  db_wf db -> db_wf (serve rq db).2.
Proof.
  intros Hwf k t Hk.
  destruct (serve_tickets rq db)
    as [[E1 E2] | [(user & c & d & path & now & E1 & E2)
                  | (admin & a & n & t1 & t2 & key & x & Hx & _ & E1 & E2)]];
    rewrite E1 in Hk; rewrite E2.
  - eauto.
  - apply lookup_insert_Some in Hk as [[<- _] | [_ Hk]]; [lia|].
    apply Hwf in Hk. lia.
  - apply lookup_insert_Some in Hk as [[<- _] | [_ Hk]]; eauto.
Qed.

Lemma serve_keeps_closed (rq : request) (db : Database) (k : Z)
  (t : Ticket.t) :
  db_wf db -> tickets db !! k = Some t -> Ticket.status t = lit "closed" ->
  tickets (serve rq db).2 !! k = Some t.
Proof.
  intros Hwf Hk Hc.
  destruct (serve_tickets rq db)
    as [[E1 _] | [(user & c & d & path & now & E1 & _)
                 | (admin & a & n & t1 & t2 & key & x & Hx & Hnc & E1 & _)]];
    rewrite E1.
  - done.
  - rewrite lookup_insert_ne; [done|]. apply Hwf in Hk. lia.
  - rewrite lookup_insert_ne; [done|]. intros ->. congruence.
Qed.

(** A property of a ticket that every admin update keeps holds along
    every sequence of requests. *)
Lemma serve_all_keeps (P : Ticket.t -> Prop) (rqs : list request)
  (db : Database) (k : Z) (t : Ticket.t) :
  (forall admin a n t1 t2 x, P x -> P (updated admin a n t1 t2 x)) ->
  db_wf db -> tickets db !! k = Some t -> P t ->
  exists t', tickets (serve_all rqs db) !! k = Some t' /\ P t'.
Proof.
  intros HP. revert db t.
  induction rqs as [|rq rqs IH]; intros db t Hwf Hk Ht; [by exists t|].
  cbn [serve_all foldl].
  assert (exists t', tickets (serve rq db).2 !! k = Some t' /\ P t')
    as (t' & Hk' & Ht').
  { destruct (serve_tickets rq db)
      as [[E1 _] | [(user & c & d & path & now & E1 & _)
                   | (admin & a & n & t1 & t2 & key & x & Hx & _ & E1 & _)]];
      rewrite E1.
    - by exists t.
    - rewrite lookup_insert_ne; [by exists t|]. apply Hwf in Hk. lia.
    - destruct (decide (key = k)) as [->|Hne].
      + rewrite lookup_insert_eq. eexists. split; [done|].
        apply HP. congruence.
      + rewrite lookup_insert_ne by done. by exists t. }
  apply (IH _ t'); [by apply serve_wf | done | done].
Qed.

(** ** Status moves forward *)

Lemma sample_open_tickets : tickets sample_open = {[1 := sample_ticket]}.
Proof. by vm_compute. Qed.

Lemma sample_open_lookup (k : Z) (t : Ticket.t) :
  tickets sample_open !! k = Some t -> k = 1 /\ t = sample_ticket.
Proof.
  rewrite sample_open_tickets. intros H.
  by apply lookup_singleton_Some in H as [<- <-].
Qed.

(** C1 (as amended).  Every request keeps the status of every ticket
    among [open], [in_progress], [resolved], [closed]; an admin action never
    moves a status backward; a status that changes does so by [accept]
    from [open] to [in_progress], by [complete] from [in_progress] to
    [resolved], or by [close] from any status that is not [closed] straight
    to [closed]; and along every sequence of requests the status of a
    ticket only moves forward in that order. *)
Theorem status_moves_forward (db : Database) :
  (forall k t, tickets db !! k = Some t -> valid_status (Ticket.status t)) ->
  (forall rq k t', tickets (serve rq db).2 !! k = Some t' ->
                   valid_status (Ticket.status t'))
  /\ (forall m uid a fk n t1 t2 k t,
        tickets db !! k = Some t ->
        exists t',
          tickets (run (admin_tickets m uid a fk n t1 t2) db).2 !! k = Some t'
          /\ rank (Ticket.status t) <= rank (Ticket.status t')
          /\ (Ticket.status t' <> Ticket.status t ->
              (a = Some (lit "accept") /\ Ticket.status t = lit "open"
               /\ Ticket.status t' = lit "in_progress")
              \/ (a = Some (lit "complete")
                  /\ Ticket.status t = lit "in_progress"
                  /\ Ticket.status t' = lit "resolved")
              \/ (a = Some (lit "close")
                  /\ Ticket.status t' = lit "closed")))
  /\ (db_wf db ->
      forall rqs k t,
        tickets db !! k = Some t ->
        exists t',
          tickets (serve_all rqs db) !! k = Some t'
          /\ valid_status (Ticket.status t')
          /\ rank (Ticket.status t) <= rank (Ticket.status t')).
Proof.
  intros Hv. split_and!.
  - intros rq k t' Hk.
    destruct (serve_tickets rq db)
      as [[E _] | [(user & c & d & path & now & E & _)
                  | (admin & a & n & t1 & t2 & key & t & Ht & _ & E & _)]];
      rewrite E in Hk.
    + eauto.
    + apply lookup_insert_Some in Hk as [[_ <-] | [_ Hk]]; [|eauto].
      by left.
    + apply lookup_insert_Some in Hk as [[_ <-] | [_ Hk]]; [|eauto].
      rewrite updated_status. apply next_status_valid. eauto.
  - intros m uid a fk n t1 t2 k t Hk.
    destruct (admin_tickets_run m uid a fk n t1 t2 db)
      as [(r & -> & _) | (admin & key & x & r & logs & H)].
    { exists t. split; [done|]. split; [lia|done]. }
    destruct H as (_ & _ & _ & _ & Hx & _ & _ & _ & ->). simpl.
    destruct (decide (key = k)) as [->|Hne].
    + rewrite lookup_insert_eq. eexists. split; [done|].
      assert (x = t) as -> by congruence.
      rewrite updated_status. apply next_status_forward. eauto.
    + rewrite lookup_insert_ne by done.
      exists t. split; [done|]. split; [lia|done].
  - intros Hwf rqs k t Hk.
    apply (serve_all_keeps
             (fun x => valid_status (Ticket.status x)
                       /\ rank (Ticket.status t) <= rank (Ticket.status x))
             rqs db k t); [|done|done|].
    + intros admin a n t1 t2 x [Hx Hr]. rewrite updated_status.
      split; [by apply next_status_valid|].
      destruct (next_status_forward a (Ticket.status x) Hx) as [Hf _]. lia.
    + split; [eauto|lia].
Qed.

Lemma status_moves_forward_witness :
  (exists t',
     tickets (serve (sample_action "accept" "on it") sample_open).2 !! 1
     = Some t'
     /\ rank (Ticket.status sample_ticket) <= rank (Ticket.status t')
     /\ (Ticket.status t' <> Ticket.status sample_ticket ->
         (Some (lit "accept") = Some (lit "accept")
          /\ Ticket.status sample_ticket = lit "open"
          /\ Ticket.status t' = lit "in_progress")
         \/ (Some (lit "accept") = Some (lit "complete")
             /\ Ticket.status sample_ticket = lit "in_progress"
             /\ Ticket.status t' = lit "resolved")
         \/ (Some (lit "accept") = Some (lit "close")
             /\ Ticket.status t' = lit "closed")))
  /\ (exists t',
        tickets (serve_all [sample_action "accept" "on it"; sample_say;
                            sample_action "close" "done"] sample_open) !! 1
        = Some t'
        /\ valid_status (Ticket.status t')
        /\ rank (Ticket.status sample_ticket) <= rank (Ticket.status t')).
Proof.
  assert (forall k t, tickets sample_open !! k = Some t ->
                      valid_status (Ticket.status t)) as Hv.
  { intros k t H. apply sample_open_lookup in H as [_ ->]. by left. }
  assert (db_wf sample_open) as Hwf.
  { intros k t H. apply sample_open_lookup in H as [-> _]. by vm_compute. }
  assert (tickets sample_open !! 1 = Some sample_ticket) as Hk
    by by vm_compute.
  destruct (status_moves_forward sample_open Hv) as (_ & H2 & H3).
  split.
  - exact (H2 POST (Some 2) (Some (lit "accept")) (Some 1)
             (Some (lit "on it")) sample_now sample_later 1 sample_ticket Hk).
  - exact (H3 Hwf _ 1 sample_ticket Hk).
Defined.

(** The step the claim rules out: [close] takes an open ticket to [closed]
    at once, three places along the order and not one. *)
Lemma close_skips_intermediate_statuses :
  let db' := (serve (sample_action "close" "duplicate") sample_open).2 in
  Ticket.status <$> tickets sample_open !! 1 = Some (lit "open")
  /\ Ticket.status <$> tickets db' !! 1 = Some (lit "closed")
  /\ rank (lit "closed") <> rank (lit "open") + 1.
Proof. by vm_compute. Qed.

Lemma sample_closed_tickets :
  tickets sample_closed = {[1 := sample_closed_ticket]}
  /\ next_ticket_id sample_closed = 2.
Proof. by vm_compute. Qed.

Lemma sample_closed_wf : db_wf sample_closed.
Proof.
  intros k t. destruct sample_closed_tickets as [-> ->]. intros H.
  by apply lookup_singleton_Some in H as [<- _].
Qed.

(** C8.  A closed ticket stays as it is.  An admin action that names it is
    turned down and stores nothing at all; and whatever requests follow,
    the stored ticket (status, note, completion time, assigned admin and
    the rest) is the one that was closed. *)
Theorem closed_is_terminal (db : Database) (k : Z) (t : Ticket.t) :
  tickets db !! k = Some t ->
  Ticket.status t = lit "closed" ->
  (forall m uid a n t1 t2,
     (run (admin_tickets m uid a (Some k) n t1 t2) db).2 = db
     /\ ~ succeeded (run (admin_tickets m uid a (Some k) n t1 t2) db).1)
  /\ (db_wf db -> forall rqs, tickets (serve_all rqs db) !! k = Some t).
Proof.
  intros Hk Hc. split.
  - intros m uid a n t1 t2.
    destruct (admin_tickets_run m uid a (Some k) n t1 t2 db)
      as [(r & -> & Hr) | (admin & key & x & r & logs & H)]; [done|].
    destruct H as (_ & _ & _ & Hkey & Hx & _ & Hnc & _).
    congruence.
  - intros Hwf rqs. revert db Hk Hwf.
    induction rqs as [|rq rqs IH]; intros db Hk Hwf; [done|].
    cbn [serve_all foldl]. apply IH.
    + by apply serve_keeps_closed.
    + by apply serve_wf.
Qed.

Lemma closed_is_terminal_witness :
  (run (admin_tickets POST (Some 2) (Some (lit "accept")) (Some 1)
          (Some (lit "reopen")) sample_now sample_later) sample_closed).2
  = sample_closed
  /\ tickets (serve_all [sample_action "complete" "again"; sample_report;
                         sample_action "accept" "reopen"] sample_closed) !! 1
     = Some sample_closed_ticket.
Proof.
  assert (tickets sample_closed !! 1 = Some sample_closed_ticket) as Hk
    by by vm_compute.
  assert (Ticket.status sample_closed_ticket = lit "closed") as Hc
    by reflexivity.
  destruct (closed_is_terminal sample_closed 1 sample_closed_ticket Hk Hc)
    as [H1 H2].
  split.
  - exact (proj1 (H1 POST (Some 2) (Some (lit "accept")) (Some (lit "reopen"))
                    sample_now sample_later)).
  - exact (H2 sample_closed_wf _).
Defined.

(** The session of a turned-down action on a closed ticket that nobody was
    assigned to does hold the assignment; it is never committed. *)
Remark closed_assignment_is_dropped :
  let t := Ticket.set_assigned_admin_id None sample_closed_ticket in
  let db := mk_db (users sample_closed) {[1 := t]} [] [] 2 1 in
  let s := (admin_tickets POST (Some 2) (Some (lit "close")) (Some 1)
              (Some (lit "again")) sample_now sample_later (begin db)).2 in
  Ticket.assigned_admin_id <$> tickets (working s) !! 1 = Some (Some 2)
  /\ Ticket.assigned_admin_id <$> tickets (teardown s) !! 1 = Some None.
Proof. by vm_compute. Qed.

(** C6.  Assignment is set once.  After any request to the admin view, a
    ticket that had an assigned admin still has the same one; a ticket that
    had none and is the target of an action that went through is assigned
    to the admin who acted; any other ticket without an admin stays
    without. *)
Theorem assignment_set_once (m : http_method) (uid : option Z)
  (a : option str) (fk : option Z) (n : option str) (t1 t2 : datetime)
  (db : Database) (k : Z) (t : Ticket.t) :
  tickets db !! k = Some t ->
  exists t',
    tickets (run (admin_tickets m uid a fk n t1 t2) db).2 !! k = Some t'
    /\ (forall x, Ticket.assigned_admin_id t = Some x ->
                  Ticket.assigned_admin_id t' = Some x)
    /\ (Ticket.assigned_admin_id t = None ->
        if bool_decide (succeeded (run (admin_tickets m uid a fk n t1 t2) db).1
                        /\ fk = Some k)
        then exists admin,
               current_user uid (begin db) = Some admin
               /\ User.role admin = lit "admin"
               /\ Ticket.assigned_admin_id t' = Some (User.id admin)
        else Ticket.assigned_admin_id t' = None)
    /\ (db_wf db ->
        forall x rqs,
          Ticket.assigned_admin_id t = Some x ->
          exists t'',
            tickets (serve_all rqs db) !! k = Some t''
            /\ Ticket.assigned_admin_id t'' = Some x).
Proof.
  intros Hk.
  assert (db_wf db ->
          forall x rqs,
            Ticket.assigned_admin_id t = Some x ->
            exists t'',
              tickets (serve_all rqs db) !! k = Some t''
              /\ Ticket.assigned_admin_id t'' = Some x) as Hall.
  { intros Hwf x rqs Hx.
    apply (serve_all_keeps (fun y => Ticket.assigned_admin_id y = Some x)
             rqs db k t); [|done|done|done].
    intros admin a' n' t1' t2' y Hy. by rewrite updated_assigned, Hy. }
  destruct (admin_tickets_run m uid a fk n t1 t2 db)
    as [(r & -> & Hr) | (admin & key & x & r & logs & H)].
  { exists t. split; [done|]. split; [done|]. split; [|done]. intros Hn.
    simpl. rewrite bool_decide_eq_false_2; [done|]. by intros [? _]. }
  destruct H as (_ & Hu & Hrole & -> & Hx & _ & _ & Hs & ->). simpl.
  destruct (decide (key = k)) as [->|Hne].
  - rewrite lookup_insert_eq. eexists. split; [done|].
    assert (x = t) as -> by congruence.
    rewrite updated_assigned. split_and!; [| |done].
    + by intros y ->.
    + intros ->. rewrite bool_decide_eq_true_2 by done. by exists admin.
  - rewrite lookup_insert_ne by done. exists t. split; [done|].
    split; [done|]. split; [|done]. intros Hn.
    rewrite bool_decide_eq_false_2; [done|]. intros [_ ?]. congruence.
Qed.

Lemma assignment_set_once_witness :
  exists t',
    tickets (serve (sample_action "accept" "on it") sample_open).2 !! 1
    = Some t'
    /\ Ticket.assigned_admin_id t' = Some 2.
Proof.
  destruct (assignment_set_once POST (Some 2) (Some (lit "accept")) (Some 1)
              (Some (lit "on it")) sample_now sample_later sample_open 1
              sample_ticket)
    as (t' & Ht' & _ & Hnone & _); [by vm_compute|].
  exists t'. split; [exact Ht'|].
  specialize (Hnone eq_refl).
  rewrite bool_decide_eq_true_2 in Hnone by (split; by vm_compute).
  destruct Hnone as (admin & Hu & _ & ->).
  vm_compute in Hu. by injection Hu as <-.
Defined.

(** C10.  [completed_at] starts out null and stays null on every ticket
    that is still [open] or [in_progress]; an admin request fills it in only
    when it is null and the request is a [complete] that went through on
    an [in_progress] ticket, with the clock reading of that request; and a
    value that is there is never replaced, by that request or by any
    sequence of later ones. *)
Theorem completed_at_set_once (db : Database) :
  (forall rq, pending_uncompleted db -> pending_uncompleted (serve rq db).2)
  /\ (forall m uid a fk n t1 t2 k t,
        tickets db !! k = Some t ->
        exists t',
          tickets (run (admin_tickets m uid a fk n t1 t2) db).2 !! k = Some t'
          /\ (forall c, Ticket.completed_at t = Some c ->
                        Ticket.completed_at t' = Some c)
          /\ (Ticket.completed_at t = None ->
              if bool_decide
                   (succeeded (run (admin_tickets m uid a fk n t1 t2) db).1
                    /\ fk = Some k /\ a = Some (lit "complete")
                    /\ Ticket.status t = lit "in_progress")
              then Ticket.completed_at t' = Some t1
                   /\ Ticket.status t' = lit "resolved"
              else Ticket.completed_at t' = None))
  /\ (db_wf db ->
      forall rqs k t c,
        tickets db !! k = Some t ->
        Ticket.completed_at t = Some c ->
        exists t',
          tickets (serve_all rqs db) !! k = Some t'
          /\ Ticket.completed_at t' = Some c).
Proof.
  assert (lit "in_progress" <> lit "open") as Hio by lit_discr.
  assert (lit "resolved" <> lit "open") as Hro by lit_discr.
  assert (lit "resolved" <> lit "in_progress") as Hri by lit_discr.
  assert (lit "closed" <> lit "open") as Hco by lit_discr.
  assert (lit "closed" <> lit "in_progress") as Hci by lit_discr.
  assert (Some (lit "complete") <> Some (lit "accept")) as Hca by lit_discr.
  split_and!.
  - intros rq Hp k t' Hk Hs.
    destruct (serve_tickets rq db)
      as [[E _] | [(user & c & d & path & now & E & _)
                  | (admin & a & n & t1 & t2 & key & t & Ht & _ & E & _)]];
      rewrite E in Hk.
    + eauto.
    + apply lookup_insert_Some in Hk as [[_ <-] | [_ Hk]]; [done|eauto].
    + apply lookup_insert_Some in Hk as [[_ <-] | [_ Hk]]; [|eauto].
      rewrite updated_status in Hs. rewrite updated_completed_at.
      assert (Ticket.status t = lit "open" \/ Ticket.status t = lit "in_progress")
        as Hst.
      { revert Hs. unfold next_status. repeat case_bool_decide; intuition congruence. }
      rewrite (Hp key t Ht Hst).
      case_bool_decide as Hb; [|done]. exfalso.
      destruct Hb as [-> Hb]. revert Hs. unfold next_status.
      rewrite bool_decide_eq_false_2 by done.
      rewrite bool_decide_eq_true_2 by done.
      rewrite bool_decide_eq_true_2 by (by left).
      intros [?|?]; congruence.
  - intros m uid a fk n t1 t2 k t Hk.
    destruct (admin_tickets_run m uid a fk n t1 t2 db)
      as [(r & -> & Hr) | (admin & key & x & r & logs & H)].
    { exists t. split; [done|]. split; [done|]. intros Hn.
      simpl. rewrite bool_decide_eq_false_2; [done|]. by intros [? _]. }
    destruct H as (_ & Hu & Hrole & -> & Hx & _ & _ & Hs & ->). simpl.
    destruct (decide (key = k)) as [->|Hne].
    + rewrite lookup_insert_eq. eexists. split; [done|].
      assert (x = t) as -> by congruence.
      rewrite updated_completed_at, updated_status. split.
      * by intros c ->.
      * intros ->. case_bool_decide as Hb.
        -- destruct Hb as (_ & _ & -> & Hst).
           rewrite bool_decide_eq_true_2 by done. split; [done|].
           unfold next_status.
           rewrite bool_decide_eq_false_2 by done.
           rewrite bool_decide_eq_true_2 by done.
           by rewrite bool_decide_eq_true_2 by (by left).
        -- rewrite bool_decide_eq_false_2; [done|].
           intros [? ?]. apply Hb. by split_and!.
    + rewrite lookup_insert_ne by done. exists t. split; [done|].
      split; [done|]. intros Hn.
      rewrite bool_decide_eq_false_2; [done|]. intros (_ & ? & _). congruence.
  - intros Hwf rqs k t c Hk Hc.
    apply (serve_all_keeps (fun y => Ticket.completed_at y = Some c)
             rqs db k t); [|done|done|done].
    intros admin a n t1 t2 y Hy. by rewrite updated_completed_at, Hy.
Qed.

Lemma completed_at_set_once_witness :
  exists t',
    tickets (serve (sample_action "complete" "fixed") sample_in_progress).2 !! 1
    = Some t'
    /\ Ticket.completed_at t' = Some sample_now
    /\ Ticket.status t' = lit "resolved".
Proof.
  destruct (tickets sample_in_progress !! 1) as [t|] eqn:Ht;
    [|by vm_compute in Ht].
  destruct (proj1 (proj2 (completed_at_set_once sample_in_progress)) POST
              (Some 2) (Some (lit "complete")) (Some 1) (Some (lit "fixed"))
              sample_now sample_later 1 t Ht)
    as (t' & Ht' & _ & Hnone).
  exists t'. split; [exact Ht'|].
  vm_compute in Ht. injection Ht as <-.
  specialize (Hnone eq_refl).
  rewrite bool_decide_eq_true_2 in Hnone by (split_and!; by vm_compute).
  exact Hnone.
Defined.

Lemma note_entry_clean (now : datetime) (note : str) :
  note <> [] -> clean_last note ->
  note_entry now note <> [] /\ clean_head (note_entry now note)
  /\ clean_last (note_entry now note).
Proof.
  intros Hn Hl. unfold note_entry. change (lit "[") with [91%N].
  split; [done|]. split; [done|].
  do 3 (apply clean_last_app;
        [intros E; repeat (apply app_eq_nil in E as [_ E]); done|]).
  done.
Qed.

(** C3.  Notes are only ever appended.  When an admin action on a ticket
    goes through, the trimmed note [n] of the form is not empty and the
    stored note is the old one, trimmed, then a line feed, then [n] behind
    its time stamp; it is the stamped [n] alone when the old note was null
    or blank.  A stored note has nothing left to trim, so the old text is
    kept character for character by the next action. *)
Theorem admin_note_append_only (m : http_method) (uid : option Z)
  (a : option str) (n : option str) (t1 t2 : datetime) (db : Database)
  (k : Z) (t : Ticket.t) :
  tickets db !! k = Some t ->
  succeeded (run (admin_tickets m uid a (Some k) n t1 t2) db).1 ->
  let note := strip (form_or_empty n) in
  let entry := note_entry t2 note in
  note <> []
  /\ exists t' new,
       tickets (run (admin_tickets m uid a (Some k) n t1 t2) db).2 !! k
       = Some t'
       /\ Ticket.admin_note t' = Some new
       /\ new = match strip (default [] (Ticket.admin_note t)) with
                | [] => entry
                | existing => existing ++ [10%N] ++ entry
                end
       /\ (forall old, Ticket.admin_note t = Some old -> old <> [] ->
                       strip old = old -> new = old ++ [10%N] ++ entry)
       /\ new <> [] /\ strip new = new.
Proof.
  intros Hk Hs note entry.
  destruct (admin_tickets_run m uid a (Some k) n t1 t2 db)
    as [(r & E & Hr) | (admin & key & x & r & logs & H)].
  { rewrite E in Hs. done. }
  destruct H as (_ & _ & _ & Hkey & Hx & Hn & _ & _ & ->). simpl.
  injection Hkey as <-. assert (x = t) as -> by congruence.
  split; [done|].
  rewrite lookup_insert_eq. eexists _, _. split; [done|].
  split; [by apply updated_admin_note|]. fold note. fold entry.
  split; [done|].
  destruct (strip_clean (form_or_empty n)) as [_ Hnl]. fold note in Hnl.
  destruct (note_entry_clean t2 note Hn Hnl) as (He & Heh & Hel).
  fold entry in He, Heh, Hel.
  split.
  { intros old Ho Hne Hst. rewrite Ho. simpl. rewrite Hst.
    by destruct old. }
  destruct (strip_clean (default [] (Ticket.admin_note t))) as [Hxh Hxl].
  destruct (strip (default [] (Ticket.admin_note t))) as [|c l] eqn:Ex.
  - split; [done|]. by apply strip_id.
  - split; [done|]. apply strip_id.
    + by apply clean_head_app.
    + apply clean_last_app; [done|]. apply clean_last_app; [done|]. done.
Qed.

Lemma admin_note_append_only_witness :
  exists t' new,
    tickets (run (admin_tickets POST (Some 2) (Some (lit "complete")) (Some 1)
                    (Some (lit " fixed ")) sample_now sample_later)
               sample_in_progress).2 !! 1 = Some t'
    /\ Ticket.admin_note t' = Some new
    /\ new = lit "[17 Jan 2024, 09:05 WIB] on it" ++ [10%N]
             ++ lit "[17 Jan 2024, 09:05 WIB] fixed".
Proof.
  destruct (tickets sample_in_progress !! 1) as [t|] eqn:Ht;
    [|by vm_compute in Ht].
  destruct (admin_note_append_only POST (Some 2) (Some (lit "complete"))
              (Some (lit " fixed ")) sample_now sample_later
              sample_in_progress 1 t Ht)
    as (_ & t' & new & Ht' & Hnew & Heq & _); [by vm_compute|].
  exists t', new. split; [exact Ht'|]. split; [exact Hnew|].
  rewrite Heq. vm_compute in Ht. injection Ht as <-. by vm_compute.
Defined.

(** ** Chat *)

(** C4.  A message that [chat_send] stores is read on the side of its
    sender and unread on the other side: sent by an admin it has
    [is_read_admin] set and [is_read_user] clear; sent by anyone else, who
    is then the owner of the ticket, it has [is_read_user] set and
    [is_read_admin] clear. *)
Theorem chat_send_flags (uid : option Z) (tid : Z) (msg : option str)
  (now : datetime) (db : Database) :
  body (run (chat_send uid tid msg now) db).1 = JsonSuccess true ->
  exists user ticket m,
    current_user uid (begin db) = Some user
    /\ tickets db !! tid = Some ticket
    /\ ticket_messages (run (chat_send uid tid msg now) db).2
       = ticket_messages db ++ [m]
    /\ TicketMessage.ticket_id m = tid
    /\ TicketMessage.sender_id m = User.id user
    /\ TicketMessage.message m = strip (form_or_empty msg)
    /\ (User.role user = lit "admin" ->
        TicketMessage.is_read_admin m = true
        /\ TicketMessage.is_read_user m = false)
    /\ (User.role user <> lit "admin" ->
        Ticket.user_id ticket = User.id user
        /\ TicketMessage.is_read_user m = true
        /\ TicketMessage.is_read_admin m = false).
Proof.
  intros Hb.
  destruct (chat_send_run uid tid msg now db)
    as [(r & E & Hr) | (user & ticket & Hu & Ht & Hm & Hn & E)].
  { rewrite E in Hb. done. }
  rewrite E. simpl.
  exists user, ticket, (sent_message user tid msg now (next_message_id db)).
  split_and!; try done.
  - intros Hr. simpl. by rewrite bool_decide_eq_true_2.
  - intros Hr. simpl. rewrite bool_decide_eq_false_2 by done.
    by destruct Hm.
Qed.

Lemma chat_send_flags_witness :
  exists m,
    ticket_messages sample_chat = ticket_messages sample_open ++ [m]
    /\ TicketMessage.is_read_user m = true
    /\ TicketMessage.is_read_admin m = false.
Proof.
  destruct (chat_send_flags (Some 1) 1 (Some (lit " any news? ")) sample_now
              sample_open)
    as (user & ticket & m & Hu & _ & Hm & _ & _ & _ & _ & Hna);
    [by vm_compute|].
  exists m. split; [exact Hm|].
  apply Hna. vm_compute in Hu. injection Hu as <-. lit_discr.
Defined.

Lemma read_by_fields (is_admin : bool) (uid tid : Z) (m : TicketMessage.t) :
  let m' := read_by is_admin uid tid m in
  TicketMessage.id m' = TicketMessage.id m
  /\ TicketMessage.ticket_id m' = TicketMessage.ticket_id m
  /\ TicketMessage.sender_id m' = TicketMessage.sender_id m
  /\ TicketMessage.message m' = TicketMessage.message m
  /\ TicketMessage.created_at m' = TicketMessage.created_at m
  /\ other_flag is_admin m' = other_flag is_admin m
  /\ reader_flag is_admin m' =
       if (TicketMessage.ticket_id m =? tid)
          && negb (TicketMessage.sender_id m =? uid)
       then true else reader_flag is_admin m.
Proof.
  unfold read_by. destruct (_ && _); [|done]. by destruct is_admin.
Qed.

(** C5.  When a reader who may open the thread of a ticket fetches it,
    every message of that ticket sent by someone else has the flag of the
    reader's side set afterwards (that is [is_read_admin] for an admin and
    [is_read_user] otherwise); every other message keeps that flag; and
    nothing else changes: text, sender, time stamp, ticket and the flag of
    the other side of every message, and all other tables. *)
Theorem chat_messages_marks_read (local : Z) (uid : option Z) (tid : Z)
  (db : Database) (user : User.t) (ticket : Ticket.t) :
  current_user uid (begin db) = Some user ->
  tickets db !! tid = Some ticket ->
  may_chat user ticket ->
  let db' := (run (chat_messages local uid tid) db).2 in
  let adm := bool_decide (User.role user = lit "admin") in
  users db' = users db /\ tickets db' = tickets db
  /\ activity_logs db' = activity_logs db
  /\ length (ticket_messages db') = length (ticket_messages db)
  /\ forall (i : nat) (m : TicketMessage.t),
       ticket_messages db !! i = Some m ->
       exists m',
         ticket_messages db' !! i = Some m'
         /\ TicketMessage.id m' = TicketMessage.id m
         /\ TicketMessage.ticket_id m' = TicketMessage.ticket_id m
         /\ TicketMessage.sender_id m' = TicketMessage.sender_id m
         /\ TicketMessage.message m' = TicketMessage.message m
         /\ TicketMessage.created_at m' = TicketMessage.created_at m
         /\ other_flag adm m' = other_flag adm m
         /\ reader_flag adm m' =
              if (TicketMessage.ticket_id m =? tid)
                 && negb (TicketMessage.sender_id m =? User.id user)
              then true else reader_flag adm m.
Proof.
  intros Hu Ht Hm db' adm. subst db'.
  rewrite (chat_messages_run local uid tid db user ticket Hu Ht Hm). simpl.
  split_and!; try done.
  - by rewrite length_map.
  - intros i m Hi. eexists. split.
    + rewrite list_lookup_fmap, Hi. reflexivity.
    + apply read_by_fields.
Qed.

Lemma chat_messages_marks_read_witness :
  exists m',
    ticket_messages (run (chat_messages 0 (Some 2) 1) sample_chat).2 !! 0%nat
    = Some m'
    /\ TicketMessage.message m' = lit "any news?"
    /\ TicketMessage.is_read_user m' = true
    /\ TicketMessage.is_read_admin m' = true.
Proof.
  destruct (chat_messages_marks_read 0 (Some 2) 1 sample_chat root
              sample_ticket) as (_ & _ & _ & _ & H);
    [by vm_compute | by vm_compute | by left |].
  destruct (H 0%nat sample_message eq_refl)
    as (m' & Hm' & _ & _ & _ & Hmsg & _ & Ho & Hr).
  exists m'. split; [exact Hm'|]. split; [exact Hmsg|].
  split; [exact Ho | exact Hr].
Defined.

(** C9.  The thread is private.  For a user who is neither an admin nor
    the owner of the ticket, [chat_messages] answers the empty list and
    [chat_send] answers failure, and the stored rows are left as they were;
    [chat_send] also answers failure and stores nothing when the trimmed
    message is empty. *)
Theorem chat_is_private (uid : option Z) (tid : Z) (db : Database)
  (user : User.t) (ticket : Ticket.t) :
  current_user uid (begin db) = Some user ->
  tickets db !! tid = Some ticket ->
  (User.role user <> lit "admin" ->
   Ticket.user_id ticket <> User.id user ->
   forall local msg now,
     run (chat_messages local uid tid) db = (plain (Json []), db)
     /\ run (chat_send uid tid msg now) db = (plain (JsonSuccess false), db))
  /\ (forall msg now,
        strip (form_or_empty msg) = [] ->
        run (chat_send uid tid msg now) db = (plain (JsonSuccess false), db)).
Proof.
  intros Hu Ht. split.
  - intros Hr Ho local msg now.
    assert (~ may_chat user ticket) as Hm by (by intros [?|?]).
    split; [by apply (chat_messages_denied local uid tid db user ticket)|].
    unfold run, chat_send. rewrite (login_required_pass _ _ _ _ Hu).
    simpl. rewrite Ht, Hu.
    destruct (_ && _) eqn:E; [done|]. by apply chat_guard in E.
  - intros msg now Hn.
    unfold run, chat_send. rewrite (login_required_pass _ _ _ _ Hu).
    simpl. rewrite Ht, Hu. apply truthy_nil in Hn. rewrite Hn.
    by destruct (_ && _).
Qed.

Lemma chat_is_private_witness :
  run (chat_messages 0 (Some 3) 1) sample_chat = (plain (Json []), sample_chat)
  /\ run (chat_send (Some 3) 1 (Some (lit "let me in")) sample_later)
       sample_chat = (plain (JsonSuccess false), sample_chat)
  /\ run (chat_send (Some 3) 1 (Some (lit "   ")) sample_later) sample_chat
     = (plain (JsonSuccess false), sample_chat).
Proof.
  destruct (chat_is_private (Some 3) 1 sample_chat bob sample_ticket)
    as [H1 H2]; [by vm_compute | by vm_compute |].
  assert (User.role bob <> lit "admin") as Hr by lit_discr.
  assert (Ticket.user_id sample_ticket <> User.id bob) as Ho by lit_discr.
  split_and!.
  - exact (proj1 (H1 Hr Ho 0 None sample_later)).
  - exact (proj2 (H1 Hr Ho 0 (Some (lit "let me in")) sample_later)).
  - by apply H2.
Defined.

(** ** New tickets *)

Lemma short_title_of_trimmed (d : str) :
  short_title_of (strip d) =
    let line := first_line (strip d) in
    if (120 <? length line)%nat then take 120 line ++ lit "..." else line.
Proof. unfold short_title_of. by rewrite strip_idemp. Qed.

(** [first_line] cuts at the first line feed and nowhere else. *)
Lemma first_line_split (s : str) :
  exists rest,
    s = first_line s ++ rest
    /\ (10%N ∉ first_line s)
    /\ (rest = [] \/ exists r, rest = 10%N :: r).
Proof.
  induction s as [|c s (rest & E & Hn & Hr)]; simpl.
  - exists []. split; [done|]. split; [apply not_elem_of_nil | by left].
  - destruct (N.eqb_spec c 10) as [->|Hc].
    + exists (10%N :: s). split; [done|].
      split; [apply not_elem_of_nil | right; by exists s].
    + exists rest. split; [simpl; by rewrite <- E|].
      split; [|done]. intros Hin. apply elem_of_cons in Hin as [Hin|Hin];
        [by apply Hc | by apply Hn].
Qed.

(** A text with nothing to strip at its head has a first line. *)
Lemma first_line_nonempty (s : str) :
  s <> [] -> clean_head s -> first_line s <> [].
Proof.
  destruct s as [|c s]; [done|]. simpl. intros _ Hc.
  destruct (N.eqb_spec c 10) as [->|_]; [|done].
  by vm_compute in Hc.
Qed.

(** C7 (as amended).  A POST to [ticket_new] by a logged-in user whose
    body is over the limit of 2 MiB is refused and stores nothing.  Within
    the limit, it stores nothing when the trimmed description is empty;
    otherwise it stores one new ticket, under the next primary key: its
    status is [open], its owner is the user, and its title is taken from
    the first line of the trimmed description, the text before its first
    line feed.  When that line holds no carriage return the title is the
    line, cut to 120 characters and followed by three dots when the line
    is longer.  Every other ticket, every user and every message is left as
    it was. *)
Theorem ticket_new_creates_one (uid : option Z) (o : N) (c d : option str)
  (a : option upload) (utcnow : datetime) (db : Database) (user : User.t) :
  current_user uid (begin db) = Some user ->
  let description := strip (form_or_empty d) in
  let r := (run (ticket_new POST uid o c d a utcnow) db).1 in
  let db' := (run (ticket_new POST uid o c d a utcnow) db).2 in
  (MAX_CONTENT_LENGTH < content_length o a ->
   body r = RequestEntityTooLarge /\ db' = db)
  /\ (content_length o a <= MAX_CONTENT_LENGTH ->
      description = [] -> db' = db)
  /\ (content_length o a <= MAX_CONTENT_LENGTH ->
      description <> [] ->
      exists t line rest,
        tickets db' !! next_ticket_id db = Some t
        /\ Ticket.status t = lit "open"
        /\ Ticket.user_id t = User.id user
        /\ Ticket.description t = description
        /\ description = line ++ rest
        /\ line <> []
        /\ (10%N ∉ line)
        /\ (rest = [] \/ exists rest', rest = 10%N :: rest')
        /\ (13%N ∉ line ->
            Ticket.title t =
              if (120 <? length line)%nat then take 120 line ++ lit "..."
              else line)
        /\ (forall k, k <> next_ticket_id db ->
                      tickets db' !! k = tickets db !! k)
        /\ (tickets db !! next_ticket_id db = None ->
            size (tickets db') = S (size (tickets db)))
        /\ users db' = users db
        /\ ticket_messages db' = ticket_messages db).
Proof.
  intros Hu description r db'. subst r db'.
  split_and!.
  - intros Hl.
    by rewrite (ticket_new_too_large uid o c d a utcnow db user Hu Hl).
  - intros Hl.
    exact (proj1 (ticket_new_post_run uid o c d a utcnow db user Hu Hl)).
  - intros Hl Hd.
    destruct (ticket_new_post_run uid o c d a utcnow db user Hu Hl)
      as [_ H2].
    destruct (H2 Hd) as (r & path & -> & _). simpl.
    destruct (first_line_split description) as (rest & E & Hn & Hr).
    eexists _, (first_line description), rest.
    split; [by rewrite lookup_insert_eq|].
    split_and!; try done.
    + apply first_line_nonempty; [done|]. apply strip_clean.
    + intros _. apply short_title_of_trimmed.
    + intros k Hk. by rewrite lookup_insert_ne.
    + intros Hf. by rewrite map_size_insert_None.
Qed.

Lemma ticket_new_creates_one_witness :
  (run (ticket_new POST (Some 1) 400 None (Some (lit "   ")) None
          sample_utcnow) sample_db).2 = sample_db
  /\ exists t,
       tickets sample_open !! 1 = Some t
       /\ Ticket.status t = lit "open"
       /\ Ticket.user_id t = 1
       /\ Ticket.title t = lit "Cannot upload my assignment"
       /\ size (tickets sample_open) = 1%nat.
Proof.
  assert (current_user (Some 1) (begin sample_db) = Some alice) as Hu
    by reflexivity.
  split.
  - apply (proj1 (proj2 (ticket_new_creates_one (Some 1) 400 None
                           (Some (lit "   ")) None sample_utcnow sample_db
                           alice Hu))).
    + vm_compute. discriminate.
    + vm_compute. reflexivity.
  - destruct (proj2 (proj2 (ticket_new_creates_one (Some 1) 400
                              (Some (lit "Tugas"))
                              (Some (lit "  Cannot upload my assignment "))
                              None sample_utcnow sample_db alice Hu)))
      as (t & line & rest & Ht & Hs & Hw & _ & E & _ & Hn & Hr & Htitle
          & _ & Hsize & _).
    + vm_compute. discriminate.
    + lit_discr.
    + assert (strip (form_or_empty
                       (Some (lit "  Cannot upload my assignment ")))
              = lit "Cannot upload my assignment") as Ed
        by (vm_compute; reflexivity).
      rewrite Ed in E.
      assert (line = lit "Cannot upload my assignment") as ->.
      { destruct Hr as [-> | (rest' & ->)].
        - by rewrite app_nil_r in E.
        - exfalso.
          assert (10%N ∈ lit "Cannot upload my assignment") as Hin
            by (rewrite E; apply elem_of_app; right; apply list_elem_of_here).
          vm_compute in Hin.
          repeat (apply elem_of_cons in Hin as [Hin|Hin];
                  [discriminate Hin|]).
          by apply elem_of_nil in Hin. }
      exists t. split; [exact Ht|]. split; [exact Hs|]. split; [exact Hw|].
      split.
      * rewrite Htitle; [vm_compute; reflexivity|].
        intros Hin. vm_compute in Hin.
        repeat (apply elem_of_cons in Hin as [Hin|Hin];
                [discriminate Hin|]).
        by apply elem_of_nil in Hin.
      * apply Hsize. reflexivity.
Defined.

(** The case the claim leaves out: a request over the limit is refused
    though its description is not empty. *)
Lemma oversized_report_is_refused :
  let shot := mk_upload (lit "shot.png") (3 * 1024 * 1024) in
  let d := Some (lit "Cannot upload my assignment") in
  strip (form_or_empty d) <> []
  /\ run (ticket_new POST (Some 1) 400 None d (Some shot) sample_utcnow)
       sample_db
     = (plain RequestEntityTooLarge, sample_db).
Proof. split; [lit_discr | vm_compute; reflexivity]. Qed.

Example short_title_of_long :
  short_title_of (replicate 121 97%N ++ [10%N] ++ lit "second line")
  = replicate 120 97%N ++ lit "..."
  /\ short_title_of (replicate 120 97%N) = replicate 120 97%N.
Proof. by vm_compute. Qed.

Example short_title_of_two_lines :
  short_title_of (lit "first" ++ [10%N] ++ lit "second") = lit "first".
Proof. by vm_compute. Qed.

(** With the line ends a browser sends, the carriage return stays in the
    title and counts towards the 120 characters. *)
Example short_title_of_crlf :
  short_title_of (lit "first" ++ [13%N; 10%N] ++ lit "second")
  = lit "first" ++ [13%N]
  /\ short_title_of (replicate 120 97%N ++ [13%N; 10%N] ++ lit "second")
     = replicate 120 97%N ++ lit "...".
Proof. by vm_compute. Qed.

(** ** Ticket numbers *)

Lemma dec_go_length (fuel : nat) (n : Z) (acc : str) :
  (length acc <= length (dec_go fuel n acc))%nat.
Proof.
  revert n acc. induction fuel as [|fuel IH]; intros n acc; simpl; [lia|].
  destruct (n / 10 =? 0); simpl; [lia|].
  etransitivity; [|apply IH]. simpl. lia.
Qed.

Lemma dec_go_length_S (fuel : nat) (n : Z) (acc : str) :
  (S (length acc) <= length (dec_go (S fuel) n acc))%nat.
Proof.
  simpl. destruct (n / 10 =? 0); simpl; [lia|].
  etransitivity; [|apply dec_go_length]. simpl. lia.
Qed.

(** Numbers from 1000 on have at least four digits. *)
Lemma dec_length_1000 (n : Z) : 1000 <= n -> (4 <= length (dec n))%nat.
Proof.
  intros Hn. unfold dec.
  assert (9 <= Z.log2 n) as Hl by (apply (Z.log2_le_pow2 n 9); lia).
  destruct (Z.to_nat (Z.log2 n)) as [|[|[|f]]] eqn:Ef; try lia.
  assert (n / 10 <> 0 /\ n / 10 / 10 <> 0 /\ n / 10 / 10 / 10 <> 0)
    as (H1 & H2 & H3).
  { rewrite !Z.div_div by lia. split_and!; intros E;
      apply Z.div_small_iff in E; lia. }
  cbn [dec_go].
  apply Z.eqb_neq in H1, H2, H3. rewrite H1, H2, H3.
  etransitivity; [|apply dec_go_length_S]. simpl. lia.
Qed.

Lemma zfill_length (w : nat) (s : str) : (length s <= length (zfill w s))%nat.
Proof. unfold zfill. rewrite length_app. lia. Qed.

Lemma zfill_length_min (w : nat) (s : str) : (w <= length (zfill w s))%nat.
Proof. unfold zfill. rewrite length_app, length_replicate. lia. Qed.

Lemma format_0d_length_min (w : nat) (n : Z) :
  (w <= length (format_0d w n))%nat.
Proof.
  unfold format_0d. destruct (n <? 0); simpl.
  - pose proof (zfill_length_min (w - 1) (dec (- n))). lia.
  - apply zfill_length_min.
Qed.

(** From the thousandth key on, the key takes four digits or more, so
    the number is at least four characters longer than its date. *)
Lemma format_ticket_number_long (local : Z) (now : datetime) (t : Ticket.t) :
  1000 <= Ticket.id t ->
  (length (strftime_Ymd (number_date local now t)) + 4
   <= length (format_ticket_number local now t))%nat.
Proof.
  intros Hid.
  change (format_ticket_number local now t)
    with (strftime_Ymd (number_date local now t)
          ++ format_0d 3 (Ticket.id t)).
  rewrite length_app.
  assert (4 <= length (format_0d 3 (Ticket.id t)))%nat; [|lia].
  unfold format_0d. destruct (Z.ltb_spec (Ticket.id t) 0); [lia|].
  etransitivity; [apply (dec_length_1000 _ Hid) | apply zfill_length].
Qed.

(** Keys below 1000 are padded to three digits. *)
Lemma format_0d_3_small (n : Z) :
  0 <= n < 1000 -> length (format_0d 3 n) = 3%nat.
Proof.
  intros Hn.
  assert (forallb (fun i => (length (format_0d 3 (Z.of_nat i)) =? 3)%nat)
            (seq 0 1000) = true) as H by by vm_compute.
  rewrite forallb_forall in H.
  specialize (H (Z.to_nat n)). rewrite Z2Nat.id in H by lia.
  apply Nat.eqb_eq, H, in_seq. lia.
Qed.

(** C2 fails on the source.  The docstring of [format_ticket_number]
    promises a three-digit increment after the date, eleven characters in
    all; the ticket with key 1000 gets the twelve characters
    [202401161000]. *)
Theorem format_ticket_number_thousandth :
  format_ticket_number 0 sample_now thousandth_ticket = lit "202401161000"
  /\ length (format_ticket_number 0 sample_now thousandth_ticket) = 12%nat
  /\ format_ticket_number 0 sample_now sample_ticket = lit "20240116001".
Proof. by vm_compute. Qed.

(** *** Dates the calendar produces *)

Lemma month_day_bounds (n : Z) (leapyear : bool) :
  0 <= n <= 364 ->
  1 <= (month_day n leapyear).1 <= 12 /\ 1 <= (month_day n leapyear).2 <= 31.
Proof.
  intros Hn.
  assert (forallb (fun i =>
            forallb (fun l =>
              let md := month_day (Z.of_nat i) l in
              (1 <=? md.1) && (md.1 <=? 12) && (1 <=? md.2) && (md.2 <=? 31))
              [true; false])
            (seq 0 365) = true) as H by by vm_compute.
  rewrite forallb_forall in H.
  specialize (H (Z.to_nat n)). rewrite Z2Nat.id in H by lia.
  assert (In (Z.to_nat n) (seq 0 365)) as Hin by (apply in_seq; lia).
  specialize (H Hin). rewrite forallb_forall in H.
  assert (In leapyear [true; false]) as Hl by (destruct leapyear; simpl; tauto).
  specialize (H leapyear Hl). simpl in H.
  repeat (apply andb_prop in H as [H ?]). lia.
Qed.

Lemma ord2ymd_bounds (n : Z) :
  1 <= n <= ymd2ord MAXYEAR 12 31 ->
  1 <= (ord2ymd n).1.1 <= 9999
  /\ 1 <= (ord2ymd n).1.2 <= 12 /\ 1 <= (ord2ymd n).2 <= 31.
Proof.
  change (ymd2ord MAXYEAR 12 31) with 3652059. intros Hn.
  unfold ord2ymd, DI400Y, DI100Y, DI4Y.
  set (n0 := n - 1).
  set (n400 := n0 / 146097). set (r1 := n0 mod 146097).
  set (n100 := r1 / 36524). set (r2 := r1 mod 36524).
  set (n4 := r2 / 1461). set (r3 := r2 mod 1461).
  set (n1 := r3 / 365). set (r4 := r3 mod 365).
  assert (0 <= n400 <= 24 /\ 0 <= n100 <= 4 /\ 0 <= n4 <= 24 /\ 0 <= n1 <= 4
          /\ 0 <= r4 <= 364
          /\ n400 * 400 + n100 * 100 + n4 * 4 + n1 <= 9999
          /\ (n1 <> 4 -> n100 <> 4 ->
              n400 * 400 + n100 * 100 + n4 * 4 + n1 <= 9998))
    as (H400 & H100 & H4 & H1 & Hr & Hy & Hy').
  { subst n400 r1 n100 r2 n4 r3 n1 r4 n0.
    repeat split; Z.div_mod_to_equations; lia. }
  destruct ((n1 =? 4) || (n100 =? 4)) eqn:E; simpl.
  - lia.
  - apply orb_false_elim in E as [E1 E2].
    apply Z.eqb_neq in E1, E2.
    pose proof (month_day_bounds r4
                  ((n1 =? 3) && (negb (n4 =? 24) || (n100 =? 3))) Hr) as Hmd.
    destruct (month_day r4 _) as [m d]. simpl in *.
    specialize (Hy' E1 E2). lia.
Qed.

Lemma add_seconds_plausible (dt dt' : datetime) (delta : Z) :
  add_seconds dt delta = Some dt' -> plausible_date dt'.
Proof.
  unfold add_seconds.
  destruct (_ && _) eqn:E; [|done].
  apply andb_prop in E as [E1 E2].
  apply Z.ltb_lt in E1. apply Z.leb_le in E2.
  pose proof (ord2ymd_bounds ((wall_seconds dt + delta) / 86400)
                ltac:(lia)) as Hb.
  destruct (ord2ymd _) as [[y m] d]. simpl in Hb.
  intros [= <-]. exact Hb.
Qed.

Lemma astimezone_plausible (local : Z) (dt dt' : datetime) (tz : Z) :
  plausible_date dt -> astimezone local dt tz = Some dt' -> plausible_date dt'.
Proof.
  intros Hp. unfold astimezone. case_decide; [by intros [= <-]|].
  destruct (add_seconds dt _) as [u|]; [|done].
  apply add_seconds_plausible.
Qed.

(** A year of four digits is printed on four characters. *)
Lemma strftime_Y_length (dt : datetime) :
  1000 <= year dt <= 9999 -> length (strftime_Y dt) = 4%nat.
Proof.
  intros Hy. unfold strftime_Y.
  assert (forallb (fun i =>
            (length (str_of_int (1000 + Z.of_nat i)) =? 4)%nat)
            (seq 0 (Z.to_nat 9000)) = true) as H by by vm_compute.
  rewrite forallb_forall in H.
  specialize (H (Z.to_nat (year dt - 1000))).
  replace (1000 + Z.of_nat (Z.to_nat (year dt - 1000))) with (year dt) in H
    by lia.
  apply Nat.eqb_eq, H, in_seq. lia.
Qed.

Lemma format_0d_2_small (n : Z) :
  0 <= n <= 99 -> length (format_0d 2 n) = 2%nat.
Proof.
  intros Hn.
  assert (forallb (fun i => (length (format_0d 2 (Z.of_nat i)) =? 2)%nat)
            (seq 0 100) = true) as H by by vm_compute.
  rewrite forallb_forall in H.
  specialize (H (Z.to_nat n)). rewrite Z2Nat.id in H by lia.
  apply Nat.eqb_eq, H, in_seq. lia.
Qed.

Lemma strftime_Ymd_length (dt : datetime) :
  plausible_date dt -> 1000 <= year dt ->
  length (strftime_Ymd dt) = 8%nat.
Proof.
  intros (Hy & Hm & Hd) Hy'. unfold strftime_Ymd. rewrite !length_app.
  rewrite strftime_Y_length, !format_0d_2_small by lia. done.
Qed.

(** * Further properties *)

(** ** Ticket numbers, continued *)

Lemma digits_value_snoc (s : str) (c : N) :
  digits_value (s ++ [c]) = digits_value s * 10 + (Z.of_N c - 48).
Proof. unfold digits_value. by rewrite foldl_app. Qed.

Lemma dec_go_acc (fuel : nat) (n : Z) (acc : str) :
  dec_go fuel n acc = dec_go fuel n [] ++ acc.
Proof.
  revert n acc. induction fuel as [|fuel IH]; intros n acc; [done|].
  cbn [dec_go]. destruct (n / 10 =? 0); [done|].
  rewrite (IH _ (_ :: acc)), (IH _ [_]). by rewrite <- app_assoc.
Qed.

Lemma dec_go_S (fuel : nat) (n : Z) (acc : str) :
  dec_go (S fuel) n acc =
    if n / 10 =? 0 then digit (n mod 10) :: acc
    else dec_go fuel (n / 10) (digit (n mod 10) :: acc).
Proof. reflexivity. Qed.

Lemma digits_value_dec_go (fuel : nat) (n : Z) :
  0 <= n < 10 ^ Z.of_nat (S fuel) ->
  digits_value (dec_go (S fuel) n []) = n.
Proof.
  revert n. induction fuel as [|fuel IH]; intros n Hn.
  - rewrite dec_go_S. change (10 ^ Z.of_nat 1) with 10 in Hn.
    assert (n / 10 = 0) as -> by (apply Z.div_small; lia).
    rewrite Z.mod_small by lia. cbn. unfold digit. lia.
  - rewrite dec_go_S. destruct (Z.eqb_spec (n / 10) 0) as [E|E].
    + apply Z.div_small_iff in E; [|lia]. destruct E as [E|E]; [|lia].
      rewrite Z.mod_small by lia. cbn. unfold digit. lia.
    + rewrite dec_go_acc, digits_value_snoc.
      rewrite IH.
      * unfold digit.
        pose proof (Z.mod_pos_bound n 10 ltac:(lia)).
        pose proof (Z.div_mod n 10 ltac:(lia)). lia.
      * rewrite (Nat2Z.inj_succ (S fuel)), Z.pow_succ_r in Hn by lia.
        split; [apply Z.div_pos; lia|].
        apply Z.div_lt_upper_bound; lia.
Qed.

(** [dec] writes the digits of its argument. *)
Lemma digits_value_dec (n : Z) : 0 <= n -> digits_value (dec n) = n.
Proof.
  intros Hn. unfold dec. apply digits_value_dec_go. split; [done|].
  destruct (Z.eq_dec n 0) as [->|Hz].
  { apply Z.pow_pos_nonneg; lia. }
  pose proof (Z.log2_spec n ltac:(lia)) as [_ Hlt].
  pose proof (Z.log2_nonneg n).
  rewrite Nat2Z.inj_succ, Z2Nat.id by done.
  eapply Z.lt_le_trans; [exact Hlt|].
  apply Z.pow_le_mono_l. lia.
Qed.

Lemma digits_value_zeros (k : nat) (s : str) :
  digits_value (replicate k 48%N ++ s) = digits_value s.
Proof.
  unfold digits_value. rewrite foldl_app. f_equal.
  induction k as [|k IH]; [done|].
  rewrite replicate_S_end, foldl_app, IH. done.
Qed.

Lemma digits_value_format_0d (w : nat) (n : Z) :
  0 <= n -> digits_value (format_0d w n) = n.
Proof.
  intros Hn. unfold format_0d.
  destruct (Z.ltb_spec n 0); [lia|].
  unfold zfill. by rewrite digits_value_zeros, digits_value_dec.
Qed.

(** Below the thousandth key, and when the date it prints has a year of
    four digits, a ticket number is as documented: eleven characters, the
    eight of the date followed by three digits that denote the key. *)
Theorem format_ticket_number_in_range (local : Z) (now : datetime)
  (t : Ticket.t) :
  plausible_date (number_date local now t) ->
  1000 <= year (number_date local now t) ->
  0 <= Ticket.id t < 1000 ->
  exists date digits,
    format_ticket_number local now t = date ++ digits
    /\ date = strftime_Ymd (number_date local now t)
    /\ length date = 8%nat
    /\ length digits = 3%nat
    /\ digits_value digits = Ticket.id t
    /\ length (format_ticket_number local now t) = 11%nat.
Proof.
  intros Hp Hy Hid.
  exists (strftime_Ymd (number_date local now t)),
         (format_0d 3 (Ticket.id t)).
  assert (format_ticket_number local now t =
          strftime_Ymd (number_date local now t)
          ++ format_0d 3 (Ticket.id t)) as E by reflexivity.
  split; [exact E|]. split; [done|].
  split; [by apply strftime_Ymd_length|].
  split; [by apply format_0d_3_small|].
  split; [apply digits_value_format_0d; lia|].
  rewrite E, length_app, strftime_Ymd_length, format_0d_3_small by done.
  done.
Qed.

Lemma format_ticket_number_in_range_witness :
  exists date digits,
    format_ticket_number 0 sample_now sample_ticket = date ++ digits
    /\ date = lit "20240116"
    /\ digits_value digits = 1.
Proof.
  destruct (format_ticket_number_in_range 0 sample_now sample_ticket)
    as (date & digits & E & Hd & _ & _ & Hv & _).
  - vm_compute. repeat split; discriminate.
  - vm_compute. discriminate.
  - vm_compute. split; [discriminate | reflexivity].
  - exists date, digits. split; [exact E|]. split; [|exact Hv].
    rewrite Hd. vm_compute. reflexivity.
Defined.

(** Ticket numbers tell tickets apart: when the dates they print have
    years of four digits, two tickets whose numbers are equal have the same
    key, and their numbers show the same date. *)
Theorem ticket_number_unique (local : Z) (now1 now2 : datetime)
  (t1 t2 : Ticket.t) :
  plausible_date (number_date local now1 t1) ->
  plausible_date (number_date local now2 t2) ->
  1000 <= year (number_date local now1 t1) ->
  1000 <= year (number_date local now2 t2) ->
  0 <= Ticket.id t1 -> 0 <= Ticket.id t2 ->
  format_ticket_number local now1 t1 = format_ticket_number local now2 t2 ->
  Ticket.id t1 = Ticket.id t2
  /\ strftime_Ymd (number_date local now1 t1)
     = strftime_Ymd (number_date local now2 t2).
Proof.
  intros Hp1 Hp2 Hy1 Hy2 Hi1 Hi2 E.
  change (strftime_Ymd (number_date local now1 t1) ++ format_0d 3 (Ticket.id t1)
          = strftime_Ymd (number_date local now2 t2)
            ++ format_0d 3 (Ticket.id t2)) in E.
  apply app_inj_1 in E as [Ep Es];
    [|by rewrite !strftime_Ymd_length].
  split; [|done].
  rewrite <- (digits_value_format_0d 3 (Ticket.id t1)) by done.
  rewrite <- (digits_value_format_0d 3 (Ticket.id t2)) by done.
  by rewrite Es.
Qed.

Lemma ticket_number_unique_witness :
  Ticket.id sample_ticket
  = Ticket.id (Ticket.set_status (lit "closed") sample_ticket)
  /\ strftime_Ymd (number_date 0 sample_now sample_ticket)
     = strftime_Ymd (number_date 0 sample_later
                       (Ticket.set_status (lit "closed") sample_ticket)).
Proof.
  apply (ticket_number_unique 0 sample_now sample_later sample_ticket
           (Ticket.set_status (lit "closed") sample_ticket)).
  - vm_compute. repeat split; discriminate.
  - vm_compute. repeat split; discriminate.
  - vm_compute. discriminate.
  - vm_compute. discriminate.
  - vm_compute. discriminate.
  - vm_compute. discriminate.
  - vm_compute. reflexivity.
Defined.

(** ** The admin view, continued *)

(** Only a logged-in admin gets past the decorators of the admin view:
    without a session the request is sent to the login page, and with the
    session of anyone who is not an admin it is sent to the dashboard with
    a warning; in both cases nothing is stored. *)
Theorem admin_view_needs_admin (m : http_method) (uid : option Z)
  (a : option str) (fk : option Z) (n : option str) (t1 t2 : datetime)
  (db : Database) :
  (forall admin, current_user uid (begin db) = Some admin ->
                 User.role admin <> lit "admin") ->
  run (admin_tickets m uid a fk n t1 t2) db =
    (match uid with
     | Some u => if u =? 0 then plain (Redirect (lit "login"))
                 else no_admin_access
     | None => plain (Redirect (lit "login"))
     end, db).
Proof.
  intros Hna. unfold run, admin_tickets, login_required, admin_required.
  destruct uid as [u|]; [|done].
  destruct (u =? 0) eqn:E; [done|].
  destruct (current_user (Some u) (begin db)) as [user|] eqn:Hu; [|done].
  rewrite bool_decide_eq_true_2; [done|]. by apply Hna.
Qed.

Lemma admin_view_needs_admin_witness :
  run (admin_tickets POST (Some 1) (Some (lit "close")) (Some 1)
         (Some (lit "let me")) sample_now sample_later) sample_open
  = (no_admin_access, sample_open).
Proof.
  apply (admin_view_needs_admin POST (Some 1)).
  intros admin Hu. vm_compute in Hu. injection Hu as <-. lit_discr.
Defined.
